(** * Messenger on a wide-column store: the data-access layer

    A shallow embedding of [app/models/cassandra_models.py] (the classes
    [MessageModel] and [ConversationModel]) over a model of the four tables
    created by [scripts/setup_db.py], and the properties of the layer:
    id allocation from the counter table, conversation identity and its
    two-sided probe, the summary row kept by [create_message], and the two
    in-memory pagination strategies. *)

From Stdlib Require Import ZArith List Lia Permutation Sorted.
From stdpp Require Import base numbers option list gmap fin_maps strings sorting.
From stdpp Require Import pretty.

Local Open Scope Z_scope.

(** ** Values

    Python integers are unbounded, hence [Z]. A [datetime] has microseconds:
    it is the number of microseconds since the epoch. A [TIMESTAMP] column
    has milliseconds: it holds the number of milliseconds since the epoch.
    A [datetime] that goes to the store, as the value of a column or as a
    bound in a [WHERE], is cut to whole milliseconds towards the epoch; a
    column that is read comes back as the [datetime] of its milliseconds. *)

Definition Timestamp : Type := Z.

Definition Millis : Type := Z.

Definition to_column (t : Timestamp) : Millis := Z.quot t 1000.

Definition of_column (ms : Millis) : Timestamp := ms * 1000.

(** What is read back after [t] was written. *)
Definition stored (t : Timestamp) : Timestamp := of_column (to_column t).

(** ** Python list slicing

    [l[start:stop]] with the default step: a negative bound counts from the
    end of the list, and both bounds are then clamped into [0 .. len l]; the
    slice is empty when the clamped stop does not exceed the clamped start. *)

Definition clamp_index (n i : Z) : Z :=
  if i <? 0 then Z.max (i + n) 0 else Z.min i n.

Definition py_slice {A : Type} (l : list A) (start stop : Z) : list A :=
  let n := Z.of_nat (length l) in
  let lo := clamp_index n start in
  let hi := clamp_index n stop in
  take (Z.to_nat (hi - lo)) (drop (Z.to_nat lo) l).

(** ** The tables of [scripts/setup_db.py]

    Every table is a finite map from its primary key to the remaining
    columns, which gives [INSERT] and [UPDATE] their upsert meaning. *)

(** [indexes], [PRIMARY KEY (index_name)]: the counter [index_value] is the
    value of the map. *)

(** [messages], [PRIMARY KEY (conversation_id, timestamp, message_id)],
    [CLUSTERING ORDER BY (timestamp DESC, message_id ASC)]: the key of the
    map is the triple, in that order, with the timestamp in milliseconds. *)
Record MessageCols : Type := mkMessageCols {
  mc_sender_id : Z;
  mc_receiver_id : Z;
  mc_content : string
}.

(** [user_conversations], [PRIMARY KEY (conversation_id)]: the summary. *)
Record SummaryCols : Type := mkSummaryCols {
  sc_sender_id : Z;
  sc_receiver_id : Z;
  sc_last_timestamp : Millis;
  sc_last_message : string
}.

(** [conversations], [PRIMARY KEY (conversation_id, sender_id)]: the identity;
    the key of the map is the pair. *)
Record IdentityCols : Type := mkIdentityCols {
  ic_receiver_id : Z;
  ic_last_timestamp : Millis
}.

Record Store : Type := mkStore {
  indexes : gmap string Z;
  messages : gmap (Z * Z * Z) MessageCols;
  user_conversations : gmap Z SummaryCols;
  conversations : gmap (Z * Z) IdentityCols
}.

Definition empty_store : Store :=
  {| indexes := ∅; messages := ∅; user_conversations := ∅; conversations := ∅ |}.

(** ** Rows as the client hands them to the models *)

Record MessageRow : Type := mkMessageRow {
  row_message_id : Z;
  row_sender_id : Z;
  row_receiver_id : Z;
  row_content : string;
  row_timestamp : Timestamp
}.

Record SummaryRow : Type := mkSummaryRow {
  srow_conversation_id : Z;
  srow_sender_id : Z;
  srow_receiver_id : Z;
  srow_last_timestamp : Timestamp;
  srow_last_message : string
}.

(** ** The dictionaries the models return *)

(** [create_message]'s result. *)
Record MessageRecord : Type := mkMessageRecord {
  message_id : Z;
  sender_id : Z;
  receiver_id : Z;
  content : string;
  timestamp : Timestamp;
  conversation_id : Z
}.

(** An entry of a message page. *)
Record MessageItem : Type := mkMessageItem {
  item_id : Z;
  item_sender_id : Z;
  item_receiver_id : Z;
  item_content : string;
  item_created_at : Timestamp;
  item_conversation_id : Z
}.

(** An entry of a conversation page. *)
Record ConversationItem : Type := mkConversationItem {
  conv_id : Z;
  user1_id : Z;
  user2_id : Z;
  conv_last_message_at : Timestamp;
  conv_last_message_content : string
}.

(** [get_conversation]'s and [create_or_get_conversation]'s result; the
    content is [None] for a conversation that was just created. *)
Record ConversationRecord : Type := mkConversationRecord {
  cr_conversation_id : Z;
  cr_sender_id : Z;
  cr_receiver_id : Z;
  last_message_at : Timestamp;
  last_message_content : option string
}.

(** [create_conversation]'s result. *)
Record CreatedConversation : Type := mkCreatedConversation {
  cc_conversation_id : Z;
  cc_sender_id : Z;
  cc_receiver_id : Z;
  created_at : Timestamp
}.

(** ** Store round trips

    A model function is a sequence of round trips, each of which reads or
    changes the store: a state-passing computation. *)

Definition M (A : Type) : Type := Store -> A * Store.

Definition ret {A : Type} (a : A) : M A := fun st => (a, st).

Definition bind {A B : Type} (m : M A) (k : A -> M B) : M B :=
  fun st => let (a, st') := m st in k a st'.

Definition query {A : Type} (f : Store -> A) : M A := fun st => (f st, st).

Definition exec (f : Store -> Store) : M unit := fun st => (tt, f st).

Notation "'do' x <- m ; k" := (bind m (fun x => k))
  (at level 10, x name, m at level 100, k at level 200).
Notation "'run' m ; k" := (bind m (fun _ => k))
  (at level 10, m at level 100, k at level 200).

Definition result {A : Type} (m : M A) (st : Store) : A := fst (m st).
Definition after {A : Type} (m : M A) (st : Store) : Store := snd (m st).

(** ** The statements the models send *)

(** Modelled from the spec: the client [app.db.cassandra_client] and the store
    behind it are not among the sources. Each statement of
    [cassandra_models.py] gets the meaning its CQL text has on the schema of
    [scripts/setup_db.py]: [execute(statement, params) -> rows], a write is an
    upsert on the primary key, a counter that has no row counts from 0, a
    partition of [messages] is read in its clustering order, and a [datetime]
    reaches a [TIMESTAMP] column or bound in whole milliseconds. A round trip
    that fails (the store is down, a timeout) raises in the caller and is not
    part of the model; neither are callers that interleave. *)
Module Cql.

(** [SELECT index_value FROM indexes WHERE index_name = name] *)
Definition select_index_value (name : string) (st : Store) : list Z :=
  match indexes st !! name with
  | Some v => [v]
  | None => []
  end.

(** [UPDATE indexes SET index_value = index_value + 1 WHERE index_name = name] *)
Definition update_index_increment (name : string) (st : Store) : Store :=
  {| indexes := <[name := default 0 (indexes st !! name) + 1]> (indexes st);
     messages := messages st;
     user_conversations := user_conversations st;
     conversations := conversations st |}.

(** [INSERT INTO messages (message_id, conversation_id, sender_id,
    receiver_id, content, timestamp) VALUES (...)] *)
Definition insert_message (msg_id conv_id sender receiver : Z)
    (text : string) (ts : Timestamp) (st : Store) : Store :=
  {| indexes := indexes st;
     messages :=
       <[(conv_id, to_column ts, msg_id) := mkMessageCols sender receiver text]>
         (messages st);
     user_conversations := user_conversations st;
     conversations := conversations st |}.

(** [select conversation_id from user_conversations where conversation_id = c] *)
Definition select_summary_id (conv_id : Z) (st : Store) : list Z :=
  match user_conversations st !! conv_id with
  | Some _ => [conv_id]
  | None => []
  end.

(** [INSERT INTO user_conversations (conversation_id, sender_id, receiver_id,
    last_timestamp, last_message) VALUES (...)] *)
Definition insert_summary (conv_id sender receiver : Z) (ts : Timestamp)
    (text : string) (st : Store) : Store :=
  {| indexes := indexes st;
     messages := messages st;
     user_conversations :=
       <[conv_id := mkSummaryCols sender receiver (to_column ts) text]>
         (user_conversations st);
     conversations := conversations st |}.

(** [UPDATE user_conversations SET last_timestamp = .., last_message = ..,
    sender_id = .., receiver_id = .. WHERE conversation_id = c]: every column
    of the row is assigned, so the row that results does not depend on the
    one that was there. *)
Definition update_summary (ts : Timestamp) (text : string)
    (sender receiver conv_id : Z) (st : Store) : Store :=
  {| indexes := indexes st;
     messages := messages st;
     user_conversations :=
       partial_alter
         (fun _ => Some (mkSummaryCols sender receiver (to_column ts) text))
         conv_id (user_conversations st);
     conversations := conversations st |}.

(** The rows of the partition [conv_id] of [messages]. *)
Definition message_row (kv : Z * Z * Z * MessageCols) : MessageRow :=
  {| row_message_id := kv.1.2;
     row_sender_id := mc_sender_id kv.2;
     row_receiver_id := mc_receiver_id kv.2;
     row_content := mc_content kv.2;
     row_timestamp := of_column kv.1.1.2 |}.

Definition partition_rows (conv_id : Z) (st : Store) : list MessageRow :=
  message_row <$>
    filter (fun kv : Z * Z * Z * MessageCols => kv.1.1.1 = conv_id)
           (map_to_list (messages st)).

(** [CLUSTERING ORDER BY (timestamp DESC, message_id ASC)] *)
Definition clustering_le (r1 r2 : MessageRow) : Prop :=
  row_timestamp r2 < row_timestamp r1
  \/ (row_timestamp r1 = row_timestamp r2 /\ row_message_id r1 <= row_message_id r2).

#[global] Instance clustering_le_dec : RelDecision clustering_le.
Proof. intros r1 r2. unfold clustering_le. apply _. Defined.

(** [SELECT COUNT as count FROM messages WHERE conversation_id = c] *)
Definition count_messages (conv_id : Z) (st : Store) : list Z :=
  [Z.of_nat (length (partition_rows conv_id st))].

(** [SELECT message_id, sender_id, receiver_id, content, timestamp FROM
    messages WHERE conversation_id = c ORDER BY timestamp DESC] *)
Definition select_messages (conv_id : Z) (st : Store) : list MessageRow :=
  merge_sort clustering_le (partition_rows conv_id st).

(** [SELECT COUNT as count FROM messages WHERE conversation_id = c AND
    timestamp < t]: the column is compared with the bound in milliseconds,
    which on the rows read is [row_timestamp r < stored t]. *)
Definition count_messages_before (conv_id : Z) (before : Timestamp)
    (st : Store) : list Z :=
  [Z.of_nat (length (filter (fun r => row_timestamp r < stored before)
                            (partition_rows conv_id st)))].

(** [SELECT ... FROM messages WHERE conversation_id = c AND timestamp < t
    ORDER BY timestamp DESC], with the bound in milliseconds likewise. *)
Definition select_messages_before (conv_id : Z) (before : Timestamp)
    (st : Store) : list MessageRow :=
  merge_sort clustering_le
    (filter (fun r => row_timestamp r < stored before)
            (partition_rows conv_id st)).

(** The rows of [user_conversations], in the order the store scans them. *)
Definition summary_row (kv : Z * SummaryCols) : SummaryRow :=
  {| srow_conversation_id := kv.1;
     srow_sender_id := sc_sender_id kv.2;
     srow_receiver_id := sc_receiver_id kv.2;
     srow_last_timestamp := of_column (sc_last_timestamp kv.2);
     srow_last_message := sc_last_message kv.2 |}.

Definition summary_rows (st : Store) : list SummaryRow :=
  summary_row <$> map_to_list (user_conversations st).

(** [SELECT ... FROM user_conversations WHERE sender_id = u ALLOW FILTERING] *)
Definition select_summaries_by_sender (user : Z) (st : Store) : list SummaryRow :=
  filter (fun r => srow_sender_id r = user) (summary_rows st).

(** [SELECT ... FROM user_conversations WHERE receiver_id = u ALLOW FILTERING] *)
Definition select_summaries_by_receiver (user : Z) (st : Store) : list SummaryRow :=
  filter (fun r => srow_receiver_id r = user) (summary_rows st).

(** [SELECT conversation_id, sender_id, receiver_id, last_timestamp,
    last_message FROM user_conversations WHERE conversation_id = c] *)
Definition select_summary (conv_id : Z) (st : Store) : list SummaryRow :=
  match user_conversations st !! conv_id with
  | Some cols => [summary_row (conv_id, cols)]
  | None => []
  end.

(** [INSERT INTO conversations (conversation_id, sender_id, receiver_id,
    last_timestamp) VALUES (...)] *)
Definition insert_conversation (conv_id sender receiver : Z) (ts : Timestamp)
    (st : Store) : Store :=
  {| indexes := indexes st;
     messages := messages st;
     user_conversations := user_conversations st;
     conversations :=
       <[(conv_id, sender) := mkIdentityCols receiver (to_column ts)]>
         (conversations st) |}.

(** [SELECT conversation_id FROM conversations WHERE sender_id = s AND
    receiver_id = r ALLOW FILTERING] *)
Definition identity_matches (sender receiver : Z)
    (kv : Z * Z * IdentityCols) : Prop :=
  kv.1.2 = sender /\ ic_receiver_id kv.2 = receiver.

#[global] Instance identity_matches_dec sender receiver kv :
  Decision (identity_matches sender receiver kv).
Proof. unfold identity_matches. apply _. Defined.

Definition select_conversation_ids (sender receiver : Z) (st : Store) : list Z :=
  (fun kv : Z * Z * IdentityCols => kv.1.1) <$>
    filter (identity_matches sender receiver) (map_to_list (conversations st)).

End Cql.

(** ** [class MessageModel] *)

Module MessageModel.

(** [create_message]; [now] is the value [datetime.now()] returns, which
    goes to both tables and, as it is, into the record returned. When the
    summary row is absent it is inserted, otherwise it is updated. The calls
    to the logger, and the loop over [rows] that only logs, are left out. *)
Definition create_message (now : Timestamp)
    (conversation_id sender_id receiver_id : Z) (content : string)
    : M MessageRecord :=
  do output <- query (Cql.select_index_value "message_id");
  let msg_id := match output with row :: _ => row + 1 | [] => 1 end in
  run exec (Cql.update_index_increment "message_id");
  let created_at := now in
  run exec (Cql.insert_message msg_id conversation_id sender_id receiver_id
                               content created_at);
  do rows <- query (Cql.select_summary_id conversation_id);
  run (match rows with
       | [] =>
           exec (Cql.insert_summary conversation_id sender_id receiver_id
                                    created_at content)
       | _ :: _ =>
           exec (Cql.update_summary created_at content sender_id receiver_id
                                    conversation_id)
       end);
  ret (mkMessageRecord msg_id sender_id receiver_id content created_at
                       conversation_id).

(** The dictionary built from a row in the loops of the two listings. *)
Definition message_item (conversation_id : Z) (row : MessageRow) : MessageItem :=
  {| item_id := row_message_id row;
     item_sender_id := row_sender_id row;
     item_receiver_id := row_receiver_id row;
     item_content := row_content row;
     item_created_at := row_timestamp row;
     item_conversation_id := conversation_id |}.

(** [get_conversation_messages], with the statement that counts as a
    parameter: [total] is first bound to what that statement gives and then
    bound again to [len(messages)]. *)
Definition get_conversation_messages_counting
    (count_query : Z -> Store -> list Z)
    (conversation_id page limit : Z) : M (list MessageItem * Z) :=
  do count_output <- query (count_query conversation_id);
  let total := match count_output with row :: _ => row | [] => 0 end in
  do output <- query (Cql.select_messages conversation_id);
  let messages := message_item conversation_id <$> output in
  let total := Z.of_nat (length messages) in
  let offset := (page - 1) * limit in
  let paginated_messages := py_slice messages offset (offset + limit) in
  let messages :=
    match paginated_messages with [] => [] | _ :: _ => paginated_messages end in
  ret (messages, total).

Definition get_conversation_messages : Z -> Z -> Z -> M (list MessageItem * Z) :=
  get_conversation_messages_counting Cql.count_messages.

(** [get_messages_before_timestamp], in the same way. *)
Definition get_messages_before_timestamp_counting
    (count_query : Z -> Timestamp -> Store -> list Z)
    (conversation_id : Z) (before_timestamp : Timestamp) (page limit : Z)
    : M (list MessageItem * Z) :=
  do count_output <- query (count_query conversation_id before_timestamp);
  let total := match count_output with row :: _ => row | [] => 0 end in
  do output <-
    query (Cql.select_messages_before conversation_id before_timestamp);
  let messages := message_item conversation_id <$> output in
  let total := Z.of_nat (length messages) in
  let offset := (page - 1) * limit in
  let paginated_messages := py_slice messages offset (offset + limit) in
  let messages :=
    match paginated_messages with [] => [] | _ :: _ => paginated_messages end in
  ret (messages, total).

Definition get_messages_before_timestamp
    : Z -> Timestamp -> Z -> Z -> M (list MessageItem * Z) :=
  get_messages_before_timestamp_counting Cql.count_messages_before.

End MessageModel.

(** ** [class ConversationModel] *)

Module ConversationModel.

(** [sorted(rows, key=lambda x: x["last_timestamp"])]: a new list, in
    ascending order of the key. *)
Definition last_timestamp_le (r1 r2 : SummaryRow) : Prop :=
  srow_last_timestamp r1 <= srow_last_timestamp r2.

#[global] Instance last_timestamp_le_dec : RelDecision last_timestamp_le.
Proof. intros r1 r2. unfold last_timestamp_le. apply _. Defined.

Definition sorted_by_last_timestamp (rows : list SummaryRow) : list SummaryRow :=
  merge_sort last_timestamp_le rows.

Definition conversation_item (row : SummaryRow) : ConversationItem :=
  {| conv_id := srow_conversation_id row;
     user1_id := srow_sender_id row;
     user2_id := srow_receiver_id row;
     conv_last_message_at := srow_last_timestamp row;
     conv_last_message_content := srow_last_message row |}.

(** [get_user_conversations]: the value of [sorted] is bound to nothing. *)
Definition get_user_conversations (user_id page limit : Z)
    : M (list ConversationItem * Z) :=
  do output_one <- query (Cql.select_summaries_by_sender user_id);
  do output_two <- query (Cql.select_summaries_by_receiver user_id);
  let output_list_one := output_one ++ output_two in
  let _ := sorted_by_last_timestamp output_list_one in
  let total := Z.of_nat (length output_list_one) in
  let offset := (page - 1) * limit in
  let paginated_output := py_slice output_list_one offset (offset + limit) in
  let conversations := conversation_item <$> paginated_output in
  ret (conversations, total).

(** [create_conversation], on the path where no round trip fails. *)
Definition create_conversation (now : Timestamp) (sender_id receiver_id : Z)
    : M CreatedConversation :=
  do output <- query (Cql.select_index_value "conversation_id");
  let conversation_id := match output with row :: _ => row + 1 | [] => 1 end in
  run exec (Cql.update_index_increment "conversation_id");
  let created_at := now in
  run exec (Cql.insert_conversation conversation_id sender_id receiver_id
                                    created_at);
  ret (mkCreatedConversation conversation_id sender_id receiver_id created_at).

(** [get_conversation]: [None] when the summary table has no such row. *)
Definition get_conversation (conversation_id : Z)
    : M (option ConversationRecord) :=
  do output <- query (Cql.select_summary conversation_id);
  match output with
  | [] => ret None
  | result :: _ =>
      ret (Some (mkConversationRecord
                   (srow_conversation_id result) (srow_sender_id result)
                   (srow_receiver_id result) (srow_last_timestamp result)
                   (Some (srow_last_message result))))
  end.

(** [create_or_get_conversation]: both probes are sent before either is
    looked at. *)
Definition create_or_get_conversation (now : Timestamp) (user1_id user2_id : Z)
    : M (option ConversationRecord) :=
  do output_one <- query (Cql.select_conversation_ids user1_id user2_id);
  do output_two <- query (Cql.select_conversation_ids user2_id user1_id);
  match output_one with
  | row :: _ => get_conversation row
  | [] =>
      match output_two with
      | row :: _ => get_conversation row
      | [] =>
          do output <- query (Cql.select_index_value "conversation_id");
          let conversation_id :=
            match output with row :: _ => row + 1 | [] => 1 end in
          run exec (Cql.update_index_increment "conversation_id");
          let created_at := now in
          run exec (Cql.insert_conversation conversation_id user1_id user2_id
                                            created_at);
          ret (Some (mkConversationRecord conversation_id user1_id user2_id
                                          created_at None))
      end
  end.

End ConversationModel.

(** The allocation both models perform inline: the read, the id computed
    from what was read, and then the increment, which returns no rows. *)
Definition next_id (index_name : string) : M Z :=
  do output <- query (Cql.select_index_value index_name);
  let id := match output with row :: _ => row + 1 | [] => 1 end in
  run exec (Cql.update_index_increment index_name);
  ret id.

Import MessageModel ConversationModel.

(** ** Counting rows, and a store to list from *)

#[global] Instance SummaryRow_eq_dec : EqDecision SummaryRow.
Proof. solve_decision. Defined.


(** Three summaries of user 1: sender of conversation 1 (last message at
    20 ms), receiver of conversations 2 (at 10 ms) and 3 (at 30 ms). *)
Definition listing_store : Store :=
  Cql.insert_summary 3 7 1 30000 "c"
    (Cql.insert_summary 2 7 1 10000 "b"
       (Cql.insert_summary 1 1 7 20000 "a" empty_store)).

(** ** [scripts/setup_db.py]: waiting for the store *)

Module SetupDb.

(** What [wait_for_cassandra] ends with: the cluster of the attempt that
    connected, or the exception raised after the last attempt. *)
Inductive Waited : Type :=
  | Ready (attempt : nat)
  | CouldNotConnect.

(** The loop [for _ in range(10)]. [connects i] tells whether attempt [i]
    (counted from 0) gets its session or raises; [slept] adds up the seconds
    of [time.sleep(5)]. *)
Fixpoint wait_attempts (connects : nat -> bool) (attempts : list nat)
    (slept : Z) : Waited * Z :=
  match attempts with
  | [] => (CouldNotConnect, slept)
  | i :: rest =>
      if connects i then (Ready i, slept)
      else wait_attempts connects rest (slept + 5)
  end.

Definition wait_for_cassandra (connects : nat -> bool) : Waited * Z :=
  wait_attempts connects (seq 0 10) 0.

End SetupDb.

(** ** [scripts/generate_test_data.py] *)

Module TestData.

Definition NUM_USERS : Z := 10.
Definition NUM_CONVERSATIONS : Z := 15.
Definition MAX_MESSAGES_PER_CONVERSATION : Z := 50.

(** What the script runs in: the store behind the session, the numbers the
    generator of [random] is going to produce, and the readings of the clock
    to come. A run that needs more numbers or readings than there are has no
    result. *)
Record World : Type := mkWorld {
  store : Store;
  draws : list Z;
  clock : list Timestamp
}.

Definition G (A : Type) : Type := World -> option (A * World).

Definition gret {A : Type} (a : A) : G A := fun w => Some (a, w).

Definition gbind {A B : Type} (m : G A) (k : A -> G B) : G B :=
  fun w => match m w with
           | Some (a, w') => k a w'
           | None => None
           end.

Notation "'draw' x <- m ; k" := (gbind m (fun x => k))
  (at level 10, x name, m at level 100, k at level 200).
Notation "'then_' m ; k" := (gbind m (fun _ => k))
  (at level 10, m at level 100, k at level 200).

(** [random.randint(lo, hi)]: the next number, brought into [lo .. hi]. *)
Definition randint_of (lo hi d : Z) : Z := lo + d mod (hi - lo + 1).

Definition randint (lo hi : Z) : G Z :=
  fun w => match draws w with
           | [] => None
           | d :: rest => Some (randint_of lo hi d, mkWorld (store w) rest (clock w))
           end.

(** [random.choice([True, False])]: the entry at the next number modulo 2. *)
Definition choice_true_false : G bool :=
  fun w => match draws w with
           | [] => None
           | d :: rest => Some (bool_decide (d mod 2 = 0),
                                mkWorld (store w) rest (clock w))
           end.

(** [datetime.now()] *)
Definition datetime_now : G Timestamp :=
  fun w => match clock w with
           | [] => None
           | t :: rest => Some (t, mkWorld (store w) (draws w) rest)
           end.

(** [timedelta(days=d)] and [timedelta(minutes=m)], in microseconds. *)
Definition days (d : Z) : Z := d * 86400000000.
Definition minutes (m : Z) : Z := m * 60000000.

(** [session.execute(statement, params)] *)
Definition session_execute (statement : Store -> Store) : G unit :=
  fun w => Some (tt, mkWorld (statement (store w)) (draws w) (clock w)).

(** [while user2_id == user1_id: user2_id = random.randint(1, NUM_USERS)],
    on the numbers that are left; the numbers not used are handed back. *)
Fixpoint redraw_while_equal (user1_id user2_id : Z) (ds : list Z)
    : option (Z * list Z) :=
  if bool_decide (user2_id = user1_id) then
    match ds with
    | [] => None
    | d :: rest => redraw_while_equal user1_id (randint_of 1 NUM_USERS d) rest
    end
  else Some (user2_id, ds).

Definition while_equal (user1_id user2_id : Z) : G Z :=
  fun w => match redraw_while_equal user1_id user2_id (draws w) with
           | Some (user2_id', rest) =>
               Some (user2_id', mkWorld (store w) rest (clock w))
           | None => None
           end.

(** [for x in xs: body] *)
Fixpoint for_each {A : Type} (xs : list A) (body : A -> G unit) : G unit :=
  match xs with
  | [] => gret tt
  | x :: rest => then_ body x; for_each rest body
  end.

(** The messages of one conversation: the inner loop. *)
Definition generate_messages (conversation_id user1_id user2_id : Z)
    (last_timestamp : Timestamp) (num_messages : Z) : G unit :=
  for_each (seqZ 1 num_messages) (fun message_id =>
    draw m <- randint 1 1000;
    let timestamp := last_timestamp - minutes m in
    draw heads <- choice_true_false;
    let sender_id := if heads then user1_id else user2_id in
    let receiver_id :=
      if bool_decide (sender_id = user1_id) then user2_id else user1_id in
    session_execute
      (Cql.insert_message message_id conversation_id sender_id receiver_id
         ("Message " +:+ pretty message_id +:+ " in conversation "
          +:+ pretty conversation_id)
         timestamp)).

(** One turn of the outer loop. *)
Definition generate_conversation (conversation_id : Z) : G unit :=
  draw user1_id <- randint 1 NUM_USERS;
  draw user2_id <- randint 1 NUM_USERS;
  draw user2_id <- while_equal user1_id user2_id;
  draw now <- datetime_now;
  draw d <- randint 0 30;
  let last_timestamp := now - days d in
  then_ session_execute
    (Cql.insert_summary conversation_id user1_id user2_id last_timestamp
       ("Last message in conversation " +:+ pretty conversation_id));
  draw num_messages <- randint 1 MAX_MESSAGES_PER_CONVERSATION;
  generate_messages conversation_id user1_id user2_id last_timestamp num_messages.

(** [generate_test_data(session)] *)
Definition generate_test_data : G unit :=
  for_each (seqZ 1 NUM_CONVERSATIONS) generate_conversation.

(** A world with numbers and readings enough for a run: in every
    conversation users 4 and 8, no day back, and one message, two minutes
    before, sent by user 4. *)
Definition sample_world : World :=
  mkWorld empty_store (concat (replicate 15 [3; 7; 0; 0; 1; 2]))
          (replicate 15 9000000000).

(** Whenever [m] has a result and the store satisfied [P] before, the result
    and the store satisfy [Q] after. *)
Definition keeps {A : Type} (P : Store -> Prop) (m : G A)
    (Q : A -> Store -> Prop) : Prop :=
  forall w a w', P (store w) -> m w = Some (a, w') -> Q a (store w').

(** A summary row as the script writes it for conversation [c]. *)
Definition summary_generated (c : Z) (cols : SummaryCols) : Prop :=
  sc_sender_id cols <> sc_receiver_id cols
  /\ 1 <= sc_sender_id cols <= NUM_USERS
  /\ 1 <= sc_receiver_id cols <= NUM_USERS
  /\ sc_last_message cols = "Last message in conversation " +:+ pretty c.

(** A message row as the script writes it, against the summary [scols] of
    its conversation. *)
Definition message_generated (scols : SummaryCols) (key : Z * Z * Z)
    (mcols : MessageCols) : Prop :=
  key.1.2 < sc_last_timestamp scols
  /\ ((mc_sender_id mcols = sc_sender_id scols
       /\ mc_receiver_id mcols = sc_receiver_id scols)
      \/ (mc_sender_id mcols = sc_receiver_id scols
          /\ mc_receiver_id mcols = sc_sender_id scols))
  /\ mc_content mcols
     = "Message " +:+ pretty key.2 +:+ " in conversation " +:+ pretty key.1.1.

(** Where a run that started on [st0] stands when the conversations [done]
    are written. *)
Definition generated_so_far (st0 : Store) (done : list Z) (st : Store) : Prop :=
  indexes st = indexes st0
  /\ conversations st = conversations st0
  /\ (forall c, c ∈ done ->
        exists cols, user_conversations st !! c = Some cols
                     /\ summary_generated c cols)
  /\ (forall key mcols,
        messages st !! key = Some mcols ->
        messages st0 !! key = Some mcols
        \/ (key.1.1 ∈ done
            /\ exists scols, user_conversations st !! key.1.1 = Some scols
                             /\ message_generated scols key mcols)).

End TestData.

(** * Properties *)

(** ** Slices *)

Example py_slice_inside : py_slice [1; 2; 3; 4; 5] 1 3 = [2; 3].
Proof. reflexivity. Qed.

Example py_slice_past_the_end : py_slice [1; 2; 3; 4; 5] 3 10 = [4; 5].
Proof. reflexivity. Qed.

Example py_slice_from_the_end : py_slice [1; 2; 3; 4; 5] (-4) (-2) = [2; 3].
Proof. reflexivity. Qed.

Example py_slice_page_zero : py_slice [1; 2; 3; 4; 5] (-20) 0 = [].
Proof. reflexivity. Qed.

Example py_slice_before_the_start : py_slice [1; 2; 3; 4; 5] (-7) (-3) = [1; 2].
Proof. reflexivity. Qed.

Example py_slice_negative_limit : py_slice [1; 2; 3; 4; 5] 1 0 = [].
Proof. reflexivity. Qed.

Section Slices.
Context {A : Type}.
Implicit Types l : list A.

Lemma clamp_index_range n i : 0 <= n -> 0 <= clamp_index n i <= n.
Proof. unfold clamp_index. destruct (Z.ltb_spec i 0); lia. Qed.

Lemma py_slice_sublist l start stop : py_slice l start stop `sublist_of` l.
Proof.
  unfold py_slice. etrans; [apply sublist_take | apply sublist_drop].
Qed.

Lemma py_slice_elem_of l start stop x : x ∈ py_slice l start stop -> x ∈ l.
Proof. intros Hx. eapply elem_of_sublist; [exact Hx | apply py_slice_sublist]. Qed.

(** Between bounds that are not negative a slice is a [take] of a [drop]. *)
Lemma py_slice_nonneg l (a k : nat) :
  py_slice l (Z.of_nat a) (Z.of_nat a + Z.of_nat k) = take k (drop a l).
Proof.
  unfold py_slice, clamp_index.
  destruct (Z.ltb_spec (Z.of_nat a) 0) as [?|_]; [lia|].
  destruct (Z.ltb_spec (Z.of_nat a + Z.of_nat k) 0) as [?|_]; [lia|].
  destruct (decide (a <= length l)%nat) as [Hle|Hgt].
  - replace (Z.to_nat (Z.min (Z.of_nat a) (Z.of_nat (length l)))) with a by lia.
    replace (Z.to_nat (Z.min (Z.of_nat a + Z.of_nat k) (Z.of_nat (length l)) -
                       Z.min (Z.of_nat a) (Z.of_nat (length l))))
      with (Nat.min k (length l - a)) by lia.
    rewrite <- (length_drop l a), <- take_take.
    f_equal. apply take_ge. reflexivity.
  - replace (Z.to_nat (Z.min (Z.of_nat a + Z.of_nat k) (Z.of_nat (length l)) -
                       Z.min (Z.of_nat a) (Z.of_nat (length l))))
      with 0%nat by lia.
    rewrite (drop_ge l a) by lia. by rewrite take_nil.
Qed.

Lemma py_slice_all l : py_slice l 0 (Z.of_nat (length l)) = l.
Proof.
  change 0 with (Z.of_nat 0).
  rewrite <- (Z.add_0_l (Z.of_nat (length l))).
  change 0 with (Z.of_nat 0).
  rewrite py_slice_nonneg. simpl. by apply take_ge.
Qed.

(** [x if x else []] is [x]. *)
Lemma or_empty_id l : match l with [] => [] | _ :: _ => l end = l.
Proof. by destruct l. Qed.

(** The first [n] windows of width [k] make up the first [n * k] entries. *)
Lemma windows_take l (k n : nat) :
  concat ((fun i : nat => take k (drop (i * k) l)) <$> seq 0 n) = take (n * k) l.
Proof.
  induction n as [|n IH].
  - reflexivity.
  - rewrite seq_S, fmap_app, concat_app, IH. simpl.
    rewrite app_nil_r, take_take_drop. f_equal. lia.
Qed.

Lemma fmap_seq_from_1 (f : nat -> list A) (n : nat) :
  f <$> seq 1 n = (fun i : nat => f (S i)) <$> seq 0 n.
Proof.
  rewrite <- (fmap_S_seq 0 n). symmetry. apply (list_fmap_compose S f).
Qed.

Lemma StronglySorted_sublist (R : relation A) l1 l2 :
  l1 `sublist_of` l2 -> StronglySorted R l2 -> StronglySorted R l1.
Proof.
  induction 1 as [|x l1 l2 Hsub IH|x l1 l2 Hsub IH]; intros Hs.
  - constructor.
  - apply StronglySorted_inv in Hs as [Hs Hall]. constructor; [by apply IH|].
    rewrite Forall_forall in Hall |- *.
    intros y Hy. apply Hall. by eapply elem_of_sublist.
  - apply StronglySorted_inv in Hs as [Hs _]. by apply IH.
Qed.
End Slices.

(** ** Datetimes and columns *)

Lemma to_column_spec (t : Timestamp) :
  exists r, t = 1000 * to_column t + r
            /\ -1000 < r < 1000 /\ (0 <= t -> 0 <= r) /\ (t <= 0 -> r <= 0).
Proof.
  exists (Z.rem t 1000). unfold to_column.
  pose proof (Z.quot_rem' t 1000) as Hqr.
  pose proof (Z.rem_bound_abs t 1000) as Habs.
  pose proof (Z.rem_nonneg t 1000) as Hpos.
  pose proof (Z.rem_nonpos t 1000) as Hneg.
  lia.
Qed.

Lemma to_column_of_column (ms : Millis) : to_column (of_column ms) = ms.
Proof. unfold to_column, of_column. apply Z.quot_mul. lia. Qed.

Lemma stored_of_column (ms : Millis) : stored (of_column ms) = of_column ms.
Proof. unfold stored. by rewrite to_column_of_column. Qed.

Lemma to_column_stored (t : Timestamp) : to_column (stored t) = to_column t.
Proof. unfold stored. apply to_column_of_column. Qed.

(** Writing loses less than a millisecond, and nothing of a [datetime] of
    whole milliseconds. *)
Lemma stored_near (t : Timestamp) : Z.abs (t - stored t) < 1000.
Proof.
  destruct (to_column_spec t) as (r & Ht & Hr & _).
  unfold stored, of_column. lia.
Qed.

Lemma stored_whole (t : Timestamp) : Z.rem t 1000 = 0 <-> stored t = t.
Proof.
  unfold stored, of_column, to_column.
  pose proof (Z.quot_rem' t 1000). lia.
Qed.

(** Comparing in the store is comparing milliseconds. *)
Lemma of_column_lt_stored (ms : Millis) (t : Timestamp) :
  of_column ms < stored t <-> ms < to_column t.
Proof. unfold stored, of_column. lia. Qed.

Lemma of_column_lt (ms : Millis) (t : Timestamp) :
  of_column ms < stored t -> of_column ms < t.
Proof.
  intros Hlt%of_column_lt_stored.
  destruct (to_column_spec t) as (r & Ht & Hr & _).
  unfold of_column. lia.
Qed.

#[local] Instance of_column_inj : Inj (=) (=) of_column.
Proof. intros m1 m2. unfold of_column. lia. Qed.

(** ** Running a model function *)

Lemma result_query {A B : Type} (f : Store -> A) (k : A -> M B) st :
  bind (query f) k st = k (f st) st.
Proof. reflexivity. Qed.

Lemma result_exec {B : Type} (f : Store -> Store) (k : unit -> M B) st :
  bind (exec f) k st = k tt (f st).
Proof. reflexivity. Qed.

(** ** The statements *)

Lemma select_index_value_next name st :
  match Cql.select_index_value name st with row :: _ => row + 1 | [] => 1 end
  = default 0 (indexes st !! name) + 1.
Proof. unfold Cql.select_index_value. by destruct (indexes st !! name). Qed.

(** On the summary table [INSERT] and [UPDATE] leave the same row. *)
Lemma update_summary_insert_summary ts text s r c st :
  Cql.update_summary ts text s r c st = Cql.insert_summary c s r ts text st.
Proof. reflexivity. Qed.

Lemma select_summary_insert_summary c s r ts text st :
  Cql.select_summary c (Cql.insert_summary c s r ts text st)
  = [mkSummaryRow c s r (stored ts) text].
Proof.
  unfold Cql.select_summary, Cql.insert_summary. simpl.
  by rewrite lookup_insert_eq.
Qed.

(** ** The summary follows the last message *)

Lemma create_message_after now c s r text st :
  after (create_message now c s r text) st
  = Cql.insert_summary c s r now text
      (Cql.insert_message (default 0 (indexes st !! "message_id") + 1) c s r text now
         (Cql.update_index_increment "message_id" st)).
Proof.
  unfold after, create_message.
  rewrite result_query, result_exec, result_exec, result_query.
  rewrite select_index_value_next.
  destruct (Cql.select_summary_id c _); reflexivity.
Qed.

Lemma create_message_result now c s r text st :
  result (create_message now c s r text) st
  = mkMessageRecord (default 0 (indexes st !! "message_id") + 1) s r text now c.
Proof.
  unfold result, create_message.
  rewrite result_query, result_exec, result_exec, result_query.
  rewrite select_index_value_next.
  destruct (Cql.select_summary_id c _); reflexivity.
Qed.

(** The claim that after [create_message] the last timestamp of
    [get_conversation] is the timestamp of the message fails when it is read
    against the record that [create_message] returned: a message created at
    150.5 ms is returned with that timestamp, and [get_conversation] gives
    150 ms, what the column holds. *)
Lemma create_message_timestamp_is_cut :
  let msg := result (create_message 150500 1 1 2 "hello") empty_store in
  let st' := after (create_message 150500 1 1 2 "hello") empty_store in
  timestamp msg = 150500
  /\ result (get_conversation 1) st'
     = Some (mkConversationRecord 1 1 2 150000 (Some "hello"))
  /\ ~ (exists rec, result (get_conversation 1) st' = Some rec
                    /\ last_message_at rec = timestamp msg).
Proof.
  vm_compute. split_and!; [exact eq_refl | exact eq_refl |].
  intros (rec & [= <-] & Hts). discriminate Hts.
Qed.

(** C3, amended. After [create_message c s r content], whether or not the
    summary row of [c] existed, [get_conversation c] returns a record whose
    last message is [content] and whose last timestamp is the timestamp of
    the message as the store keeps it: the row of the message is in the table
    under that timestamp. It is the timestamp of the record that
    [create_message] returned cut to whole milliseconds, less than a
    millisecond away from it, and the same when that one has whole
    milliseconds. *)
Theorem create_message_updates_summary now c s r text st :
  let msg := result (create_message now c s r text) st in
  let st' := after (create_message now c s r text) st in
  exists rec,
    result (get_conversation c) st' = Some rec
    /\ last_message_content rec = Some text
    /\ rec = mkConversationRecord c s r (stored now) (Some (content msg))
    /\ messages st' !! (c, to_column (last_message_at rec), message_id msg)
       = Some (mkMessageCols s r text)
    /\ last_message_at rec = stored (timestamp msg)
    /\ Z.abs (timestamp msg - last_message_at rec) < 1000
    /\ (Z.rem (timestamp msg) 1000 = 0 -> last_message_at rec = timestamp msg).
Proof.
  intros msg st'. subst msg st'.
  rewrite create_message_after, create_message_result.
  unfold result, get_conversation. rewrite result_query.
  rewrite select_summary_insert_summary. simpl.
  eexists. split_and!; try reflexivity; simpl.
  - rewrite to_column_stored. apply lookup_insert_eq.
  - apply stored_near.
  - intros Hwhole. by apply stored_whole.
Qed.

Lemma create_message_updates_summary_witness :
  Z.rem 150000 1000 = 0
  /\ exists rec,
       result (get_conversation 1)
              (after (create_message 150000 1 1 2 "hello") empty_store)
       = Some rec
       /\ last_message_at rec
          = timestamp (result (create_message 150000 1 1 2 "hello") empty_store).
Proof.
  split; [reflexivity|].
  destruct (create_message_updates_summary 150000 1 1 2 "hello" empty_store)
    as (rec & Hrec & _ & _ & _ & _ & _ & Hwhole).
  exists rec. split; [exact Hrec|].
  apply Hwhole. reflexivity.
Defined.

(** ** Id allocation *)

Lemma create_conversation_result now s r st :
  result (create_conversation now s r) st
  = mkCreatedConversation (default 0 (indexes st !! "conversation_id") + 1) s r now.
Proof.
  unfold result, create_conversation.
  rewrite result_query, select_index_value_next. reflexivity.
Qed.

Lemma create_conversation_after now s r st :
  after (create_conversation now s r) st
  = Cql.insert_conversation (default 0 (indexes st !! "conversation_id") + 1) s r now
      (Cql.update_index_increment "conversation_id" st).
Proof.
  unfold after, create_conversation.
  rewrite result_query, select_index_value_next. reflexivity.
Qed.

(** The path of [create_or_get_conversation] on which neither probe has a row. *)
Lemma create_or_get_conversation_fresh now a b st :
  Cql.select_conversation_ids a b st = [] ->
  Cql.select_conversation_ids b a st = [] ->
  create_or_get_conversation now a b st
  = (Some (mkConversationRecord
             (default 0 (indexes st !! "conversation_id") + 1) a b now None),
     Cql.insert_conversation (default 0 (indexes st !! "conversation_id") + 1) a b now
       (Cql.update_index_increment "conversation_id" st)).
Proof.
  intros H1 H2. unfold create_or_get_conversation.
  rewrite !result_query, H1, H2, result_query, select_index_value_next.
  reflexivity.
Qed.

(** C5. The allocation reads the counter, takes an absent row for 0 (the
    first id is 1), returns the value read plus 1, and only then sends the
    increment, a statement of its own that returns nothing: the id is the one
    computed from the store as it was before the increment. [create_message]
    allocates in this way from the counter of messages, [create_conversation]
    and the creating path of [create_or_get_conversation] from the counter of
    conversations. *)
Theorem next_id_read_then_increment name st :
  result (next_id name) st
    = match Cql.select_index_value name st with row :: _ => row + 1 | [] => 1 end
  /\ result (next_id name) st = default 0 (indexes st !! name) + 1
  /\ (indexes st !! name = None -> result (next_id name) st = 1)
  /\ after (next_id name) st = Cql.update_index_increment name st
  /\ indexes (after (next_id name) st)
       = <[name := default 0 (indexes st !! name) + 1]> (indexes st)
  /\ (forall now c s r text,
        message_id (result (create_message now c s r text) st)
          = result (next_id "message_id") st
        /\ indexes (after (create_message now c s r text) st)
          = indexes (after (next_id "message_id") st))
  /\ (forall now s r,
        cc_conversation_id (result (create_conversation now s r) st)
          = result (next_id "conversation_id") st
        /\ indexes (after (create_conversation now s r) st)
          = indexes (after (next_id "conversation_id") st))
  /\ (forall now a b,
        Cql.select_conversation_ids a b st = [] ->
        Cql.select_conversation_ids b a st = [] ->
        cr_conversation_id <$> result (create_or_get_conversation now a b) st
          = Some (result (next_id "conversation_id") st)
        /\ indexes (after (create_or_get_conversation now a b) st)
          = indexes (after (next_id "conversation_id") st)).
Proof.
  assert (Hres : forall n, result (next_id n) st = default 0 (indexes st !! n) + 1).
  { intros n. unfold result, next_id. rewrite result_query.
    simpl. apply select_index_value_next. }
  assert (Haft : forall n, after (next_id n) st = Cql.update_index_increment n st).
  { reflexivity. }
  split_and!; try (intros; split).
  - apply Hres.
  - intros Hnone. rewrite Hres, Hnone. exact eq_refl.
  - rewrite create_message_result, Hres. exact eq_refl.
  - rewrite create_message_after, Haft. exact eq_refl.
  - rewrite create_conversation_result, Hres. exact eq_refl.
  - rewrite create_conversation_after, Haft. exact eq_refl.
  - unfold result at 1. rewrite create_or_get_conversation_fresh, Hres by assumption.
    exact eq_refl.
  - unfold after at 1. rewrite create_or_get_conversation_fresh by assumption.
    exact eq_refl.
Qed.

Lemma next_id_read_then_increment_witness :
  result (next_id "conversation_id") empty_store = 1
  /\ cr_conversation_id <$> result (create_or_get_conversation 100 1 2) empty_store
     = Some (result (next_id "conversation_id") empty_store).
Proof.
  pose proof (next_id_read_then_increment "conversation_id" empty_store)
    as (_ & _ & Hfirst & _ & _ & _ & _ & Hfresh).
  split.
  - apply Hfirst. reflexivity.
  - apply (Hfresh 100 1 2); reflexivity.
Defined.

(** Two callers that both read before either increments are handed the same
    id, and the counter ends two ahead. *)
Lemma next_id_interleaved name st :
  let id_of (output : list Z) :=
    match output with row :: _ => row + 1 | [] => 1 end in
  let first := id_of (Cql.select_index_value name st) in
  let second := id_of (Cql.select_index_value name st) in
  let st' := Cql.update_index_increment name (Cql.update_index_increment name st) in
  first = second /\ indexes st' !! name = Some (first + 1).
Proof.
  simpl. split; [reflexivity|].
  rewrite select_index_value_next. simpl.
  rewrite lookup_insert_eq. simpl. by rewrite lookup_insert_eq.
Qed.

(** ** Totals *)

(** C6. The total that [get_conversation_messages] and
    [get_messages_before_timestamp] return is the number of rows fetched,
    before slicing, whatever the statement that counts returns. *)
Theorem total_is_fetched_length st c t page limit :
  (forall count_query,
      (result (get_conversation_messages_counting count_query c page limit) st).2
      = Z.of_nat (length (Cql.select_messages c st)))
  /\ (forall count_query,
      (result (get_messages_before_timestamp_counting count_query c t page limit) st).2
      = Z.of_nat (length (Cql.select_messages_before c t st)))
  /\ (result (get_conversation_messages c page limit) st).2
     = Z.of_nat (length (Cql.select_messages c st))
  /\ (result (get_messages_before_timestamp c t page limit) st).2
     = Z.of_nat (length (Cql.select_messages_before c t st)).
Proof.
  repeat split; intros; unfold result; simpl; by rewrite length_fmap.
Qed.

(** ** Pages of messages *)

Lemma get_conversation_messages_page st c page limit :
  (result (get_conversation_messages c page limit) st).1
  = py_slice (message_item c <$> Cql.select_messages c st)
             ((page - 1) * limit) ((page - 1) * limit + limit).
Proof. unfold result. simpl. apply or_empty_id. Qed.

Lemma get_messages_before_timestamp_page st c t page limit :
  (result (get_messages_before_timestamp c t page limit) st).1
  = py_slice (message_item c <$> Cql.select_messages_before c t st)
             ((page - 1) * limit) ((page - 1) * limit + limit).
Proof. unfold result. simpl. apply or_empty_id. Qed.

(** C9. The listings of messages slice what was fetched at
    [(page-1)*limit : (page-1)*limit + limit]; [page] and [limit] are not
    checked: for [page <= 0] (and a limit that is not negative) the offset is
    negative or zero and goes into the slice as it is, and the listing still
    returns a page and a total. *)
Theorem page_and_limit_pass_through st c t page limit :
  let offset := (page - 1) * limit in
  result (get_conversation_messages c page limit) st
    = (py_slice (message_item c <$> Cql.select_messages c st)
                offset (offset + limit),
       Z.of_nat (length (Cql.select_messages c st)))
  /\ result (get_messages_before_timestamp c t page limit) st
    = (py_slice (message_item c <$> Cql.select_messages_before c t st)
                offset (offset + limit),
       Z.of_nat (length (Cql.select_messages_before c t st)))
  /\ (page <= 0 -> 0 <= limit -> offset <= 0).
Proof.
  intros offset. split_and!.
  - unfold result. simpl. by rewrite or_empty_id, length_fmap.
  - unfold result. simpl. by rewrite or_empty_id, length_fmap.
  - subst offset. nia.
Qed.

(** With page -1 and limit 2 the offset is -4: of five messages the listing
    returns the second and the third. *)
Lemma page_and_limit_pass_through_witness :
  (-1 - 1) * 2 <= 0
  /\ item_id <$> (result (get_conversation_messages 1 (-1) 2)
                   (after (create_message 50000 1 1 2 "e")
                   (after (create_message 40000 1 2 1 "d")
                   (after (create_message 30000 1 1 2 "c")
                   (after (create_message 20000 1 2 1 "b")
                   (after (create_message 10000 1 1 2 "a") empty_store)))))).1
     = [4; 3].
Proof.
  split.
  - apply (page_and_limit_pass_through empty_store 1 0 (-1) 2); lia.
  - vm_compute. reflexivity.
Defined.

(** ** Listing before a timestamp *)

(** A row that is read has a timestamp of whole milliseconds. *)
Lemma partition_rows_whole c st row :
  row ∈ Cql.partition_rows c st ->
  exists ms : Millis, row_timestamp row = of_column ms.
Proof.
  unfold Cql.partition_rows.
  intros ([[[c' ms] i] cols] & -> & _)%list_elem_of_fmap. by exists ms.
Qed.

Lemma select_messages_before_elem_of c t st row :
  row ∈ Cql.select_messages_before c t st ->
  row_timestamp row < t /\ row ∈ Cql.select_messages c st.
Proof.
  unfold Cql.select_messages_before, Cql.select_messages.
  rewrite !merge_sort_Permutation, list_elem_of_filter.
  intros [Hlt Hrow]. split; [|exact Hrow].
  destruct (partition_rows_whole c st row Hrow) as [ms Hms].
  rewrite Hms in Hlt |- *. by apply of_column_lt.
Qed.

(** C7. Every message that [get_messages_before_timestamp c t page limit]
    returns has a timestamp strictly below [t] (none is at or after [t]) and
    is among the messages [get_conversation_messages] returns for [c] when
    one page holds them all. *)
Theorem messages_before_timestamp_subset st c t page limit m :
  m ∈ (result (get_messages_before_timestamp c t page limit) st).1 ->
  let total := (result (get_conversation_messages c page limit) st).2 in
  item_created_at m < t
  /\ ~ (t <= item_created_at m)
  /\ m ∈ (result (get_conversation_messages c 1 total) st).1.
Proof.
  intros Hm total.
  rewrite get_messages_before_timestamp_page in Hm.
  apply py_slice_elem_of, list_elem_of_fmap in Hm as (row & -> & Hrow).
  apply select_messages_before_elem_of in Hrow as [Hlt Hrow].
  split_and!; [exact Hlt | simpl; lia |].
  rewrite get_conversation_messages_page.
  replace total with
    (Z.of_nat (length (message_item c <$> Cql.select_messages c st))).
  - change ((1 - 1) * _) with 0. rewrite Z.add_0_l, py_slice_all.
    by apply list_elem_of_fmap_2.
  - subst total. unfold result. simpl. reflexivity.
Qed.

Lemma messages_before_timestamp_subset_witness :
  let st := after (create_message 30000 1 1 2 "c")
           (after (create_message 20000 1 2 1 "b")
           (after (create_message 10000 1 1 2 "a") empty_store)) in
  let m := mkMessageItem 2 2 1 "b" 20000 1 in
  m ∈ (result (get_messages_before_timestamp 1 30000 1 20) st).1
  /\ item_created_at m < 30000
  /\ m ∈ (result (get_conversation_messages 1 1 3) st).1.
Proof.
  intros st m.
  assert (Hm : m ∈ (result (get_messages_before_timestamp 1 30000 1 20) st).1).
  { vm_compute. apply list_elem_of_here. }
  split; [exact Hm|].
  destruct (messages_before_timestamp_subset st 1 30000 1 20 m Hm) as (H1 & _ & H2).
  split; [exact H1 | exact H2].
Defined.

(** ** Order and tiling of the pages *)

#[local] Instance clustering_le_total : Total Cql.clustering_le.
Proof. intros r1 r2. unfold Cql.clustering_le. lia. Qed.

#[local] Instance clustering_le_trans : Transitive Cql.clustering_le.
Proof. intros r1 r2 r3. unfold Cql.clustering_le. lia. Qed.

#[local] Instance message_item_inj c : Inj (=) (=) (message_item c).
Proof.
  intros [] [] Heq. unfold message_item in Heq. simpl in Heq.
  by simplify_eq.
Qed.

Lemma partition_rows_NoDup c st : NoDup (Cql.partition_rows c st).
Proof.
  unfold Cql.partition_rows. apply NoDup_fmap_2_strong.
  - intros [[[c1 t1] i1] [s1 r1 x1]] [[[c2 t2] i2] [s2 r2 x2]].
    rewrite !list_elem_of_filter. simpl.
    intros [-> _] [-> _] Heq. unfold Cql.message_row in Heq. simpl in Heq.
    by simplify_eq.
  - apply NoDup_filter, NoDup_map_to_list.
Qed.

Lemma select_messages_descending c st :
  StronglySorted (fun a b => item_created_at b <= item_created_at a)
                 (message_item c <$> Cql.select_messages c st).
Proof.
  apply (StronglySorted_fmap _ Cql.clustering_le).
  - intros r1 r2. unfold Cql.clustering_le. simpl. lia.
  - apply StronglySorted_merge_sort; apply _.
Qed.

(** For a positive limit the page numbered [i + 1] is the window [i]. *)
Lemma get_conversation_messages_window st c (i : nat) limit :
  0 < limit ->
  (result (get_conversation_messages c (Z.of_nat (S i)) limit) st).1
  = take (Z.to_nat limit)
      (drop (i * Z.to_nat limit) (message_item c <$> Cql.select_messages c st)).
Proof.
  intros Hlimit. rewrite get_conversation_messages_page.
  rewrite <- (py_slice_nonneg _ (i * Z.to_nat limit) (Z.to_nat limit)).
  f_equal; lia.
Qed.

(** C8. The store hands over the rows of a conversation in clustering order,
    newest first. Every page of [get_conversation_messages] is then in
    descending order of timestamp, and for a limit above 0 the pages 1, 2,
    ..., [n], one after the other, are the whole list of the messages of the
    conversation as soon as [n * limit] reaches its length: each message of
    the partition once, none left out. *)
Theorem conversation_pages_sorted_and_tiling st c :
  let full := message_item c <$> Cql.select_messages c st in
  (forall page limit,
      StronglySorted (fun a b => item_created_at b <= item_created_at a)
        (result (get_conversation_messages c page limit) st).1)
  /\ (forall limit (n : nat),
        0 < limit ->
        Z.of_nat (length full) <= Z.of_nat n * limit ->
        concat ((fun p : nat =>
                   (result (get_conversation_messages c (Z.of_nat p) limit) st).1)
                <$> seq 1 n) = full)
  /\ NoDup full
  /\ full ≡ₚ message_item c <$> Cql.partition_rows c st.
Proof.
  intros full. split_and!.
  - intros page limit. rewrite get_conversation_messages_page.
    eapply StronglySorted_sublist; [apply py_slice_sublist|].
    apply select_messages_descending.
  - intros limit n Hlimit Hn.
    rewrite fmap_seq_from_1.
    erewrite list_fmap_ext.
    + rewrite (windows_take full (Z.to_nat limit) n). apply take_ge. nia.
    + intros _ i _. simpl. by apply get_conversation_messages_window.
  - subst full. apply NoDup_fmap_2; [apply _|].
    unfold Cql.select_messages. rewrite merge_sort_Permutation.
    apply partition_rows_NoDup.
  - subst full. unfold Cql.select_messages. by rewrite merge_sort_Permutation.
Qed.

Lemma conversation_pages_sorted_and_tiling_witness :
  let st := after (create_message 30000 1 1 2 "c")
           (after (create_message 20000 1 2 1 "b")
           (after (create_message 10000 1 1 2 "a") empty_store)) in
  concat ((fun p : nat =>
             (result (get_conversation_messages 1 (Z.of_nat p) 2) st).1)
          <$> seq 1 2)
  = message_item 1 <$> Cql.select_messages 1 st.
Proof.
  intros st.
  destruct (conversation_pages_sorted_and_tiling st 1) as (_ & Htile & _).
  apply (Htile 2 2%nat); [lia | vm_compute; discriminate].
Defined.

(** ** Listing the conversations of a user *)

(** C4. [get_user_conversations] returns a slice of the rows of the scan by
    sender followed by the rows of the scan by receiver, and their number;
    the list that [sorted] builds is dropped. The page is in the order of the
    concatenation, which need not be an order of timestamps: in
    [listing_store] the page of user 1 reads 20, 30, 10 (milliseconds), where
    the sorted list reads 10, 20, 30. *)
Theorem get_user_conversations_concatenation_order :
  (forall st user_id page limit,
      let fetched := Cql.select_summaries_by_sender user_id st
                     ++ Cql.select_summaries_by_receiver user_id st in
      let offset := (page - 1) * limit in
      get_user_conversations user_id page limit st
      = ((conversation_item <$> py_slice fetched offset (offset + limit),
          Z.of_nat (length fetched)), st))
  /\ conv_last_message_at <$> (result (get_user_conversations 1 1 20) listing_store).1
     = [20000; 30000; 10000]
  /\ srow_last_timestamp <$>
       sorted_by_last_timestamp
         (Cql.select_summaries_by_sender 1 listing_store
          ++ Cql.select_summaries_by_receiver 1 listing_store)
     = [10000; 20000; 30000].
Proof.
  split_and!.
  - intros st user_id page limit. exact eq_refl.
  - vm_compute. exact eq_refl.
  - vm_compute. exact eq_refl.
Qed.

(** ** A conversation with oneself *)




Lemma summary_rows_elem_of st c cols :
  user_conversations st !! c = Some cols ->
  Cql.summary_row (c, cols) ∈ Cql.summary_rows st.
Proof.
  intros Hc. unfold Cql.summary_rows.
  apply list_elem_of_fmap_2. by apply elem_of_map_to_list.
Qed.



(** ** Creating a conversation *)

(** The claim that [create_conversation] leaves a summary row for the id it
    allocated fails on the empty store: the id is 1 and the summary table has
    no row 1 afterwards, so [get_conversation 1] finds nothing. *)
Lemma create_conversation_leaves_no_summary :
  let st' := after (create_conversation 100 1 2) empty_store in
  cc_conversation_id (result (create_conversation 100 1 2) empty_store) = 1
  /\ ~ is_Some (user_conversations st' !! 1)
  /\ result (get_conversation 1) st' = None.
Proof.
  vm_compute. split_and!; [exact eq_refl | | exact eq_refl].
  intros [cols Hcols]. discriminate Hcols.
Qed.

(** C2, amended. [create_conversation] takes the next id of the counter of
    conversations and writes one identity row under it, on every store, so
    also when the pair already has a conversation; the summary table and the
    messages are left as they were. [create_or_get_conversation] does the
    same to the store when neither probe has a row, and returns the record
    of the new id with no last message. *)
Theorem create_conversation_writes_identity_only st now s r :
  let id := default 0 (indexes st !! "conversation_id") + 1 in
  let st' := after (create_conversation now s r) st in
  result (create_conversation now s r) st = mkCreatedConversation id s r now
  /\ indexes st' = <["conversation_id" := id]> (indexes st)
  /\ conversations st'
     = <[(id, s) := mkIdentityCols r (to_column now)]> (conversations st)
  /\ user_conversations st' = user_conversations st
  /\ messages st' = messages st
  /\ (Cql.select_conversation_ids s r st = [] ->
      Cql.select_conversation_ids r s st = [] ->
      after (create_or_get_conversation now s r) st = st'
      /\ result (create_or_get_conversation now s r) st
         = Some (mkConversationRecord id s r now None)).
Proof.
  intros id st'. subst id st'.
  rewrite create_conversation_result, create_conversation_after.
  split_and!; try exact eq_refl.
  intros H1 H2. unfold after, result.
  rewrite create_or_get_conversation_fresh by assumption.
  split; exact eq_refl.
Qed.

Lemma create_conversation_writes_identity_only_witness :
  after (create_or_get_conversation 100 1 2) empty_store
    = after (create_conversation 100 1 2) empty_store
  /\ result (create_or_get_conversation 100 1 2) empty_store
     = Some (mkConversationRecord 1 1 2 100 None).
Proof.
  destruct (create_conversation_writes_identity_only empty_store 100 1 2)
    as (_ & _ & _ & _ & _ & Hfresh).
  apply Hfresh; reflexivity.
Defined.

(** ** Asking twice for the conversation of a pair *)

(** C1 on the empty store. The first [create_or_get_conversation 1 2] creates
    conversation 1. The second call, with the pair in either order, finds its
    identity row and creates nothing, but what it returns is
    [get_conversation 1], and the summary table, which the first call did not
    write to, has no row 1: the second call returns [None], not a record with
    conversation id 1. *)
Theorem create_or_get_conversation_twice :
  let first := create_or_get_conversation 100 1 2 empty_store in
  cr_conversation_id <$> first.1 = Some 1
  /\ Cql.select_conversation_ids 1 2 first.2 = [1]
  /\ result (create_or_get_conversation 200 1 2) first.2 = None
  /\ result (create_or_get_conversation 200 2 1) first.2 = None
  /\ after (create_or_get_conversation 200 1 2) first.2 = first.2
  /\ after (create_or_get_conversation 200 2 1) first.2 = first.2.
Proof. vm_compute. split_and!; exact eq_refl. Qed.

(** Once a message was sent in the conversation the second call does return
    the record of conversation 1. *)
Lemma create_or_get_conversation_after_message :
  let st := after (create_message 150000 1 1 2 "hi")
              (after (create_or_get_conversation 100 1 2) empty_store) in
  result (create_or_get_conversation 200 2 1) st
  = Some (mkConversationRecord 1 1 2 150000 (Some "hi")).
Proof. vm_compute. exact eq_refl. Qed.

(** The same on every store on which the first call creates: as long as no
    summary row stands under the new id, the second call, with the pair in
    either order, finds the identity row, leaves the store alone and returns
    [None]. *)
Lemma select_conversation_ids_insert id s r ts a b st :
  Cql.select_conversation_ids a b st = [] ->
  Cql.select_conversation_ids a b (Cql.insert_conversation id s r ts st)
  = if decide (s = a /\ r = b) then [id] else [].
Proof.
  unfold Cql.select_conversation_ids, Cql.insert_conversation. simpl.
  intros Hnone%fmap_nil_inv.
  set (m := conversations st) in *.
  set (P := Cql.identity_matches a b) in *.
  assert (Hrest : filter P (map_to_list (delete (id, s) m)) = []).
  { apply elem_of_nil_inv. intros [k v] [HP Hin]%list_elem_of_filter.
    apply elem_of_map_to_list, lookup_delete_Some in Hin as [_ Hin].
    apply (elem_of_nil (k, v)). rewrite <- Hnone.
    apply list_elem_of_filter. split; [exact HP|].
    by apply elem_of_map_to_list. }
  assert (Hperm : map_to_list (<[(id, s) := mkIdentityCols r (to_column ts)]> m)
                  ≡ₚ ((id, s), mkIdentityCols r (to_column ts))
                     :: map_to_list (delete (id, s) m)).
  { rewrite <- insert_delete_eq. apply map_to_list_insert, lookup_delete_eq. }
  destruct (decide (s = a /\ r = b)) as [Hab|Hab].
  - apply Permutation_singleton_r. rewrite Hperm.
    rewrite filter_cons_True by exact Hab. by rewrite Hrest.
  - apply Permutation_nil_r. rewrite Hperm.
    rewrite filter_cons_False by exact Hab. by rewrite Hrest.
Qed.

Lemma create_or_get_conversation_second_call now1 now2 a b st :
  Cql.select_conversation_ids a b st = [] ->
  Cql.select_conversation_ids b a st = [] ->
  user_conversations st !! (default 0 (indexes st !! "conversation_id") + 1) = None ->
  let st1 := after (create_or_get_conversation now1 a b) st in
  create_or_get_conversation now2 a b st1 = (None, st1)
  /\ create_or_get_conversation now2 b a st1 = (None, st1).
Proof.
  intros H1 H2 Hsummary st1. subst st1. unfold after.
  rewrite (create_or_get_conversation_fresh now1 a b st) by assumption. simpl.
  set (id := default 0 (indexes st !! "conversation_id") + 1) in *.
  set (st0 := Cql.update_index_increment "conversation_id" st).
  assert (Hab : Cql.select_conversation_ids a b
                  (Cql.insert_conversation id a b now1 st0) = [id]).
  { rewrite select_conversation_ids_insert by exact H1.
    by rewrite decide_True. }
  assert (Hget : forall st', user_conversations st' = user_conversations st ->
                             get_conversation id st' = (None, st')).
  { intros st' Heq. unfold get_conversation. rewrite result_query.
    unfold Cql.select_summary. by rewrite Heq, Hsummary. }
  split.
  - unfold create_or_get_conversation. rewrite !result_query, Hab.
    by apply Hget.
  - unfold create_or_get_conversation. rewrite !result_query, Hab.
    rewrite select_conversation_ids_insert by exact H2.
    destruct (decide (a = b /\ b = a)); by apply Hget.
Qed.

(** ** The scenario of two users *)

(** [create_or_get_conversation 1 2] on the empty store gives conversation 1
    with no last message; [create_message 1 1 2 "hi"], at 150.5 ms, gives
    message 1 with that timestamp; then [get_conversation 1] reports "hi" at
    150 ms, and the first page of the conversation is that one message, at
    150 ms, with total 1. *)
Example two_users_scenario :
  let st1 := after (create_or_get_conversation 100 1 2) empty_store in
  let st2 := after (create_message 150500 1 1 2 "hi") st1 in
  result (create_or_get_conversation 100 1 2) empty_store
    = Some (mkConversationRecord 1 1 2 100 None)
  /\ result (create_message 150500 1 1 2 "hi") st1
    = mkMessageRecord 1 1 2 "hi" 150500 1
  /\ result (get_conversation 1) st2
    = Some (mkConversationRecord 1 1 2 150000 (Some "hi"))
  /\ result (get_conversation_messages 1 1 20) st2
    = ([mkMessageItem 1 1 2 "hi" 150000 1], 1).
Proof. vm_compute. split_and!; exact eq_refl. Qed.

(** A conversation without messages lists as the empty page with total 0, and
    a conversation that is not there reads as [None]. *)
Lemma get_conversation_messages_empty c page limit :
  result (get_conversation_messages c page limit) empty_store = ([], 0).
Proof.
  rewrite (surjective_pairing (result _ _)), get_conversation_messages_page.
  assert (Hnone : Cql.select_messages c empty_store = []) by reflexivity.
  unfold result. simpl. rewrite Hnone. simpl.
  unfold py_slice. by rewrite drop_nil, take_nil.
Qed.

Lemma get_conversation_absent c st :
  user_conversations st !! c = None -> result (get_conversation c) st = None.
Proof.
  intros Hc. unfold result, get_conversation. rewrite result_query.
  unfold Cql.select_summary. by rewrite Hc.
Qed.

(** * Further properties of the models *)

(** ** What a partition holds, and how it is read *)

Lemma partition_rows_elem_of c st row :
  row ∈ Cql.partition_rows c st <->
  exists cols,
    messages st !! (c, to_column (row_timestamp row), row_message_id row)
    = Some cols
    /\ row = Cql.message_row
               ((c, to_column (row_timestamp row), row_message_id row), cols).
Proof.
  unfold Cql.partition_rows. rewrite list_elem_of_fmap. split.
  - intros ([[[c' t] i] cols] & -> & [Hc Hin]%list_elem_of_filter).
    simpl in Hc. subst c'. apply elem_of_map_to_list in Hin.
    exists cols. simpl. rewrite to_column_of_column.
    split; [exact Hin | reflexivity].
  - intros (cols & Hcols & Hrow).
    exists ((c, to_column (row_timestamp row), row_message_id row), cols).
    split; [exact Hrow|]. apply list_elem_of_filter. split; [reflexivity|].
    by apply elem_of_map_to_list.
Qed.

(** Two rows of one partition that the clustering order does not tell apart
    are one row: the primary key decides. *)
Lemma partition_rows_antisym c st r1 r2 :
  r1 ∈ Cql.partition_rows c st -> r2 ∈ Cql.partition_rows c st ->
  Cql.clustering_le r1 r2 -> Cql.clustering_le r2 r1 -> r1 = r2.
Proof.
  intros (cols1 & H1 & E1)%partition_rows_elem_of
         (cols2 & H2 & E2)%partition_rows_elem_of Hle Hge.
  assert (Hkey : row_timestamp r1 = row_timestamp r2
                 /\ row_message_id r1 = row_message_id r2).
  { unfold Cql.clustering_le in *. lia. }
  destruct Hkey as [Ht Hi]. rewrite Ht, Hi in H1, E1.
  rewrite H1 in H2. injection H2 as ->.
  etrans; [exact E1 | symmetry; exact E2].
Qed.

Lemma select_messages_sorted c st :
  StronglySorted Cql.clustering_le (Cql.select_messages c st).
Proof. apply StronglySorted_merge_sort; apply _. Qed.

Lemma select_messages_elem_of c st row :
  row ∈ Cql.select_messages c st <-> row ∈ Cql.partition_rows c st.
Proof. unfold Cql.select_messages. by rewrite merge_sort_Permutation. Qed.

(** Reading a partition gives one list only: any list in clustering order
    with the rows of the partition is the list that is read. *)
Lemma select_messages_unique c st rows :
  StronglySorted Cql.clustering_le rows ->
  rows ≡ₚ Cql.partition_rows c st ->
  rows = Cql.select_messages c st.
Proof.
  intros Hsorted Hperm.
  apply (StronglySorted_unique_strong Cql.clustering_le).
  - intros r1 r2 Hr1 Hr2. rewrite Hperm in Hr1.
    apply select_messages_elem_of in Hr2.
    by apply (partition_rows_antisym c st).
  - exact Hsorted.
  - apply select_messages_sorted.
  - unfold Cql.select_messages. by rewrite merge_sort_Permutation.
Qed.

Lemma select_messages_before_filter c t st :
  Cql.select_messages_before c t st
  = filter (fun r => row_timestamp r < stored t) (Cql.select_messages c st).
Proof.
  symmetry. apply (StronglySorted_unique_strong Cql.clustering_le).
  - intros r1 r2 [_ Hr1]%list_elem_of_filter Hr2.
    apply select_messages_elem_of in Hr1.
    apply select_messages_before_elem_of in Hr2 as [_ Hr2].
    apply select_messages_elem_of in Hr2.
    by apply (partition_rows_antisym c st).
  - eapply StronglySorted_sublist; [apply sublist_filter|].
    apply select_messages_sorted.
  - apply StronglySorted_merge_sort; apply _.
  - unfold Cql.select_messages_before, Cql.select_messages.
    by rewrite !merge_sort_Permutation.
Qed.

Lemma py_slice_covering {A : Type} (l : list A) (limit : Z) :
  Z.of_nat (length l) <= limit -> py_slice l 0 limit = l.
Proof.
  intros Hlimit.
  change 0 with (Z.of_nat 0). rewrite <- (Z.add_0_l limit).
  change 0 with (Z.of_nat 0). rewrite <- (Z2Nat.id limit) by lia.
  rewrite py_slice_nonneg. simpl. apply take_ge. lia.
Qed.

Lemma message_item_filter c t (rows : list MessageRow) :
  message_item c <$> filter (fun r => row_timestamp r < t) rows
  = filter (fun m => item_created_at m < t) (message_item c <$> rows).
Proof.
  induction rows as [|r rows IH]; [reflexivity|].
  rewrite fmap_cons, !filter_cons. simpl.
  destruct (decide (row_timestamp r < t)); [rewrite fmap_cons|]; by rewrite <- IH.
Qed.

Lemma get_conversation_messages_total st c page limit :
  (result (get_conversation_messages c page limit) st).2
  = Z.of_nat (length (Cql.select_messages c st)).
Proof. unfold result. simpl. by rewrite length_fmap. Qed.

Lemma get_messages_before_timestamp_total st c t page limit :
  (result (get_messages_before_timestamp c t page limit) st).2
  = Z.of_nat (length (Cql.select_messages_before c t st)).
Proof. unfold result. simpl. by rewrite length_fmap. Qed.

(** X1. With a first page wide enough for the conversation,
    [get_messages_before_timestamp] returns the messages of
    [get_conversation_messages] whose timestamp is below the bound as the
    store receives it, cut to whole milliseconds: all of them and in the same
    order, and its total is their number. For a bound of whole milliseconds
    these are the messages whose timestamp is below the bound. *)
Theorem messages_before_timestamp_is_filter st c t limit :
  (result (get_conversation_messages c 1 limit) st).2 <= limit ->
  (result (get_messages_before_timestamp c t 1 limit) st).1
    = filter (fun m => item_created_at m < stored t)
        (result (get_conversation_messages c 1 limit) st).1
  /\ (Z.rem t 1000 = 0 ->
      (result (get_messages_before_timestamp c t 1 limit) st).1
      = filter (fun m => item_created_at m < t)
          (result (get_conversation_messages c 1 limit) st).1)
  /\ (result (get_messages_before_timestamp c t 1 limit) st).2
    = Z.of_nat (length (result (get_messages_before_timestamp c t 1 limit) st).1)
  /\ (result (get_messages_before_timestamp c t 1 limit) st).2
    <= (result (get_conversation_messages c 1 limit) st).2.
Proof.
  rewrite get_conversation_messages_total, get_messages_before_timestamp_total.
  intros Hlimit.
  rewrite get_messages_before_timestamp_page, get_conversation_messages_page.
  change ((1 - 1) * limit) with 0. rewrite Z.add_0_l.
  rewrite select_messages_before_filter.
  pose proof (length_filter (fun r => row_timestamp r < stored t)
                            (Cql.select_messages c st)) as Hle.
  rewrite !py_slice_covering by (rewrite length_fmap; lia).
  split_and!.
  - apply message_item_filter.
  - intros Hwhole%stored_whole.
    rewrite (message_item_filter c (stored t)). by rewrite Hwhole.
  - by rewrite length_fmap.
  - lia.
Qed.

Lemma messages_before_timestamp_is_filter_witness :
  let st := after (create_message 30000 1 1 2 "c")
           (after (create_message 20000 1 2 1 "b")
           (after (create_message 10000 1 1 2 "a") empty_store)) in
  item_id <$> (result (get_messages_before_timestamp 1 30500 1 20) st).1 = [2; 1]
  /\ (result (get_messages_before_timestamp 1 30000 1 20) st).1
     = filter (fun m => item_created_at m < 30000)
         (result (get_conversation_messages 1 1 20) st).1.
Proof.
  intros st.
  assert (Hlimit : (result (get_conversation_messages 1 1 20) st).2 <= 20).
  { vm_compute. discriminate. }
  split.
  - destruct (messages_before_timestamp_is_filter st 1 30500 20 Hlimit) as (Heq & _).
    rewrite Heq. vm_compute. reflexivity.
  - destruct (messages_before_timestamp_is_filter st 1 30000 20 Hlimit)
      as (_ & Hwhole & _).
    apply Hwhole. reflexivity.
Defined.

(** ** What [create_message] does to the listings *)

Lemma rows_insert_fresh (m : gmap (Z * Z * Z) MessageCols) key cols c :
  m !! key = None ->
  Cql.message_row <$>
    filter (fun kv : Z * Z * Z * MessageCols => kv.1.1.1 = c)
           (map_to_list (<[key := cols]> m))
  ≡ₚ (if decide (key.1.1 = c) then [Cql.message_row (key, cols)] else [])
     ++ (Cql.message_row <$>
           filter (fun kv : Z * Z * Z * MessageCols => kv.1.1.1 = c)
                  (map_to_list m)).
Proof.
  intros Hfresh. rewrite (map_to_list_insert m key cols Hfresh), filter_cons.
  simpl. destruct (decide (key.1.1 = c)); reflexivity.
Qed.

Lemma rows_insert_length (m : gmap (Z * Z * Z) MessageCols) key cols c :
  length (filter (fun kv : Z * Z * Z * MessageCols => kv.1.1.1 = c)
                 (map_to_list (<[key := cols]> m)))
  = (length (filter (fun kv : Z * Z * Z * MessageCols => kv.1.1.1 = c)
                    (map_to_list m))
     + if decide (key.1.1 = c /\ m !! key = None) then 1 else 0)%nat.
Proof.
  pose proof (rows_insert_fresh (delete key m) key cols c
                                (lookup_delete_eq m key)) as Hnew.
  apply Permutation_length in Hnew.
  rewrite insert_delete_eq, length_app, !length_fmap in Hnew. rewrite Hnew.
  destruct (m !! key) as [old|] eqn:Hkey.
  - pose proof (rows_insert_fresh (delete key m) key old c
                                  (lookup_delete_eq m key)) as Hold.
    apply Permutation_length in Hold.
    rewrite insert_delete_eq, (insert_id m key old Hkey) in Hold.
    rewrite length_app, !length_fmap in Hold. rewrite Hold.
    rewrite (decide_False (P := _ /\ Some old = None)) by (intros [_ ?]; done).
    destruct (decide (key.1.1 = c)); simpl; lia.
  - rewrite (delete_id m key Hkey).
    destruct (decide (key.1.1 = c)) as [Hc|Hc].
    + rewrite decide_True by done. simpl. lia.
    + rewrite decide_False by tauto. simpl. lia.
Qed.

Lemma select_messages_length c st :
  length (Cql.select_messages c st) = length (Cql.partition_rows c st).
Proof.
  unfold Cql.select_messages. apply Permutation_length, merge_sort_Permutation.
Qed.

(** X2. The message [create_message] returns is listed, under its timestamp
    cut to whole milliseconds: it is on the first page of its conversation
    when the page holds the whole conversation. The total of the conversation
    goes up by one when no message with the same millisecond and id was
    there, and stays as it was when the insert replaced such a message. *)
Theorem create_message_is_listed st now c s r text :
  let msg := result (create_message now c s r text) st in
  let st' := after (create_message now c s r text) st in
  let total := (result (get_conversation_messages c 1 1) st).2 in
  let total' := (result (get_conversation_messages c 1 1) st').2 in
  mkMessageItem (message_id msg) (sender_id msg) (receiver_id msg)
                (content msg) (stored (timestamp msg)) (conversation_id msg)
    ∈ (result (get_conversation_messages c 1 total') st').1
  /\ (messages st !! (c, to_column now, message_id msg) = None ->
      total' = total + 1)
  /\ (is_Some (messages st !! (c, to_column now, message_id msg)) ->
      total' = total).
Proof.
  intros msg st' total total'. subst msg st' total total'.
  rewrite create_message_result, create_message_after.
  rewrite !get_conversation_messages_total, get_conversation_messages_page.
  set (id := default 0 (indexes st !! "message_id") + 1). simpl.
  set (st' := Cql.insert_summary _ _ _ _ _ _).
  change ((1 - 1) * _) with 0. rewrite Z.add_0_l.
  rewrite py_slice_covering by (by rewrite length_fmap).
  assert (Hlen : length (Cql.partition_rows c st')
                 = (length (Cql.partition_rows c st)
                    + if decide (c = c /\ messages st !! (c, to_column now, id) = None)
                      then 1 else 0)%nat).
  { unfold Cql.partition_rows. rewrite !length_fmap.
    apply (rows_insert_length (messages st) (c, to_column now, id)). }
  rewrite !select_messages_length, Hlen. split_and!.
  - apply (list_elem_of_fmap_2' (message_item c) _
             (mkMessageRow id s r text (stored now))); [|reflexivity].
    apply select_messages_elem_of, partition_rows_elem_of.
    exists (mkMessageCols s r text). simpl. rewrite to_column_stored.
    split; [|reflexivity].
    apply lookup_insert_eq.
  - intros Hfresh. rewrite decide_True by done. lia.
  - intros [old Hold]. rewrite decide_False by (rewrite Hold; intros [_ ?]; done).
    lia.
Qed.

Lemma create_message_is_listed_witness :
  let st := after (create_message 10000 1 1 2 "a") empty_store in
  (result (get_conversation_messages 1 1 1)
          (after (create_message 20000 1 2 1 "b") st)).2 = 2
  /\ (result (get_conversation_messages 1 1 1)
             (after (create_message 10500 1 2 1 "b")
                    (Cql.insert_message 2 1 1 2 "old" 10000 st))).2 = 2.
Proof.
  intros st. split.
  - destruct (create_message_is_listed st 20000 1 2 1 "b") as (_ & Hfresh & _).
    rewrite Hfresh; vm_compute; reflexivity.
  - destruct (create_message_is_listed
                (Cql.insert_message 2 1 1 2 "old" 10000 st) 10500 1 2 1 "b")
      as (_ & _ & Hsame).
    rewrite Hsame; [vm_compute; reflexivity|].
    vm_compute. eexists. reflexivity.
Defined.

Lemma rows_insert_other (m : gmap (Z * Z * Z) MessageCols) key cols c :
  key.1.1 <> c ->
  Cql.message_row <$>
    filter (fun kv : Z * Z * Z * MessageCols => kv.1.1.1 = c)
           (map_to_list (<[key := cols]> m))
  ≡ₚ Cql.message_row <$>
       filter (fun kv : Z * Z * Z * MessageCols => kv.1.1.1 = c)
              (map_to_list m).
Proof.
  intros Hother.
  pose proof (rows_insert_fresh (delete key m) key cols c
                                (lookup_delete_eq m key)) as Hnew.
  rewrite insert_delete_eq, decide_False in Hnew by exact Hother.
  rewrite Hnew. simpl.
  destruct (m !! key) as [old|] eqn:Hkey.
  - pose proof (rows_insert_fresh (delete key m) key old c
                                  (lookup_delete_eq m key)) as Hold.
    rewrite insert_delete_eq, (insert_id m key old Hkey) in Hold.
    rewrite decide_False in Hold by exact Hother. by rewrite Hold.
  - by rewrite (delete_id m key Hkey).
Qed.

Lemma select_messages_insert_other id c s r text ts c' st :
  c <> c' ->
  Cql.select_messages c' (Cql.insert_message id c s r text ts st)
  = Cql.select_messages c' st.
Proof.
  intros Hother. apply select_messages_unique.
  - apply select_messages_sorted.
  - unfold Cql.select_messages at 1. rewrite merge_sort_Permutation.
    unfold Cql.partition_rows. simpl.
    by apply (rows_insert_other (messages st) (c, to_column ts, id)).
Qed.

(** X3. [create_message] in conversation [c] leaves the rest alone: the
    listings and the summary of every other conversation read as before, and
    so do the identity table and the counter of conversations. *)
Theorem create_message_frame st now c s r text c' :
  c' <> c ->
  let st' := after (create_message now c s r text) st in
  (forall page limit,
      result (get_conversation_messages c' page limit) st'
      = result (get_conversation_messages c' page limit) st)
  /\ (forall t page limit,
      result (get_messages_before_timestamp c' t page limit) st'
      = result (get_messages_before_timestamp c' t page limit) st)
  /\ result (get_conversation c') st' = result (get_conversation c') st
  /\ conversations st' = conversations st
  /\ indexes st' !! "conversation_id" = indexes st !! "conversation_id".
Proof.
  intros Hother st'. subst st'. rewrite create_message_after.
  set (id := default 0 (indexes st !! "message_id") + 1).
  assert (Hsel : Cql.select_messages c'
                   (Cql.insert_summary c s r now text
                      (Cql.insert_message id c s r text now
                         (Cql.update_index_increment "message_id" st)))
                 = Cql.select_messages c' st).
  { apply (select_messages_insert_other id c s r text now c'
             (Cql.update_index_increment "message_id" st)). congruence. }
  split_and!.
  - intros page limit.
    rewrite (surjective_pairing (result _ _)),
            (surjective_pairing (result _ st)).
    rewrite !get_conversation_messages_page, !get_conversation_messages_total.
    by rewrite Hsel.
  - intros t page limit.
    rewrite (surjective_pairing (result _ _)),
            (surjective_pairing (result _ st)).
    rewrite !get_messages_before_timestamp_page,
            !get_messages_before_timestamp_total.
    by rewrite !select_messages_before_filter, Hsel.
  - unfold result, get_conversation. rewrite !result_query.
    unfold Cql.select_summary. simpl.
    rewrite lookup_insert_ne by congruence.
    destruct (user_conversations st !! c'); reflexivity.
  - reflexivity.
  - simpl. rewrite lookup_insert_ne by discriminate. reflexivity.
Qed.

Lemma create_message_frame_witness :
  let st := after (create_message 10000 1 1 2 "a") empty_store in
  result (get_conversation_messages 1 1 20)
         (after (create_message 20000 2 3 4 "b") st)
  = ([mkMessageItem 1 1 2 "a" 10000 1], 1).
Proof.
  intros st.
  destruct (create_message_frame st 20000 2 3 4 "b" 1) as (Hlist & _);
    [discriminate|].
  rewrite Hlist. vm_compute. reflexivity.
Defined.

(** ** Asking again after the first message *)

(** X4. When [create_or_get_conversation a b] has created a conversation and
    a message was then sent in it, asking again, with the pair in either
    order, changes nothing in the store and returns the record of that same
    conversation: its id, with the sender, the receiver and the text of the
    message and its time as the store keeps it. *)
Theorem create_or_get_conversation_after_first_message
    now1 now2 now3 a b s r text st :
  Cql.select_conversation_ids a b st = [] ->
  Cql.select_conversation_ids b a st = [] ->
  let id := default 0 (indexes st !! "conversation_id") + 1 in
  let st1 := after (create_or_get_conversation now1 a b) st in
  let st2 := after (create_message now2 id s r text) st1 in
  cr_conversation_id <$> result (create_or_get_conversation now1 a b) st = Some id
  /\ create_or_get_conversation now3 a b st2
     = (Some (mkConversationRecord id s r (stored now2) (Some text)), st2)
  /\ create_or_get_conversation now3 b a st2
     = (Some (mkConversationRecord id s r (stored now2) (Some text)), st2).
Proof.
  intros H1 H2 id st1 st2.
  assert (Hst1 : st1 = Cql.insert_conversation id a b now1
                         (Cql.update_index_increment "conversation_id" st)).
  { subst st1. unfold after.
    by rewrite (create_or_get_conversation_fresh now1 a b st). }
  assert (Hab : Cql.select_conversation_ids a b st2 = [id]).
  { subst st2. rewrite create_message_after, Hst1.
    etrans; [apply (select_conversation_ids_insert id a b now1 a b
                      (Cql.update_index_increment "conversation_id" st) H1)|].
    by rewrite decide_True. }
  assert (Hba : Cql.select_conversation_ids b a st2
                = if decide (a = b /\ b = a) then [id] else []).
  { subst st2. rewrite create_message_after, Hst1.
    apply (select_conversation_ids_insert id a b now1 b a
             (Cql.update_index_increment "conversation_id" st) H2). }
  assert (Hget : get_conversation id st2
                 = (Some (mkConversationRecord id s r (stored now2) (Some text)),
                    st2)).
  { assert (Hsum : Cql.select_summary id st2
                   = [mkSummaryRow id s r (stored now2) text]).
    { unfold st2. rewrite create_message_after.
      apply select_summary_insert_summary. }
    unfold get_conversation. rewrite result_query, Hsum. reflexivity. }
  split_and!.
  - unfold result. by rewrite (create_or_get_conversation_fresh now1 a b st).
  - unfold create_or_get_conversation. rewrite !result_query, Hab. exact Hget.
  - unfold create_or_get_conversation. rewrite !result_query, Hab, Hba.
    destruct (decide (a = b /\ b = a)); exact Hget.
Qed.

Lemma create_or_get_conversation_after_first_message_witness :
  let st1 := after (create_or_get_conversation 100 1 2) empty_store in
  let st2 := after (create_message 150000 1 2 1 "hi") st1 in
  result (create_or_get_conversation 200 2 1) st2
  = Some (mkConversationRecord 1 2 1 150000 (Some "hi")).
Proof.
  intros st1 st2.
  destruct (create_or_get_conversation_after_first_message
              100 150000 200 1 2 2 1 "hi" empty_store) as (_ & _ & Hba);
    [reflexivity | reflexivity |].
  exact (f_equal fst Hba).
Defined.

(** ** Ids from the two counters *)

(** X5. Ids are handed out by one: a second [create_message] gets the id of
    the first plus 1, a second [create_conversation] likewise, and the two
    counters do not touch each other: creating a conversation does not move
    the next message id, and sending a message does not move the next
    conversation id. *)
Theorem ids_are_consecutive st now1 now2 c1 s1 r1 text1 c2 s2 r2 text2 :
  message_id (result (create_message now2 c2 s2 r2 text2)
                     (after (create_message now1 c1 s1 r1 text1) st))
    = message_id (result (create_message now1 c1 s1 r1 text1) st) + 1
  /\ cc_conversation_id (result (create_conversation now2 s2 r2)
                                (after (create_conversation now1 s1 r1) st))
    = cc_conversation_id (result (create_conversation now1 s1 r1) st) + 1
  /\ message_id (result (create_message now2 c2 s2 r2 text2)
                        (after (create_conversation now1 s1 r1) st))
    = message_id (result (create_message now2 c2 s2 r2 text2) st)
  /\ cc_conversation_id (result (create_conversation now2 s2 r2)
                                (after (create_message now1 c1 s1 r1 text1) st))
    = cc_conversation_id (result (create_conversation now2 s2 r2) st).
Proof.
  rewrite !create_message_result, !create_conversation_result.
  rewrite !create_message_after, !create_conversation_after. simpl.
  rewrite !lookup_insert_eq.
  rewrite !lookup_insert_ne by discriminate. simpl. done.
Qed.

(** ** Conversations of one pair *)

Lemma select_conversation_ids_elem_of id s r st :
  id ∈ Cql.select_conversation_ids s r st <->
  exists ts, conversations st !! (id, s) = Some (mkIdentityCols r ts).
Proof.
  unfold Cql.select_conversation_ids. rewrite list_elem_of_fmap. split.
  - intros ([[id' s'] [r' ts]] & -> & [[Hs Hr] Hin]%list_elem_of_filter).
    simpl in *. subst s' r'. exists ts. by apply elem_of_map_to_list.
  - intros [ts Hts]. exists ((id, s), mkIdentityCols r ts).
    split; [reflexivity|]. apply list_elem_of_filter.
    split; [by split|]. by apply elem_of_map_to_list.
Qed.

(** X6. [create_conversation] does not look for a conversation of the pair:
    called twice with the same sender and receiver it returns two ids, the
    second one above the first, and the probe of
    [create_or_get_conversation] then finds both. *)
Theorem create_conversation_twice_makes_two st now1 now2 s r :
  let first := result (create_conversation now1 s r) st in
  let st1 := after (create_conversation now1 s r) st in
  let second := result (create_conversation now2 s r) st1 in
  let st2 := after (create_conversation now2 s r) st1 in
  cc_conversation_id second = cc_conversation_id first + 1
  /\ cc_conversation_id first ∈ Cql.select_conversation_ids s r st2
  /\ cc_conversation_id second ∈ Cql.select_conversation_ids s r st2.
Proof.
  intros first st1 second st2. subst first st1 second st2.
  rewrite !create_conversation_result, !create_conversation_after. simpl.
  rewrite !lookup_insert_eq. simpl.
  set (id := default 0 (indexes st !! "conversation_id") + 1).
  split_and!.
  - reflexivity.
  - apply select_conversation_ids_elem_of. exists (to_column now1). simpl.
    rewrite lookup_insert_ne by (intros [= ?]; lia).
    apply lookup_insert_eq.
  - apply select_conversation_ids_elem_of. exists (to_column now2). simpl.
    apply lookup_insert_eq.
Qed.

(** X7. [create_message] writes nothing to the identity table, so a message
    does not make its pair known: when neither probe had a row before the
    message, [create_or_get_conversation] for the pair still creates, under
    the next id of the counter. If the message was sent under that very id,
    the record returned says there is no last message, while
    [get_conversation] of the id reports the message. *)
Theorem create_message_registers_no_identity st now now' c s r text :
  Cql.select_conversation_ids s r st = [] ->
  Cql.select_conversation_ids r s st = [] ->
  let id := default 0 (indexes st !! "conversation_id") + 1 in
  let st' := after (create_message now c s r text) st in
  result (create_or_get_conversation now' s r) st'
    = Some (mkConversationRecord id s r now' None)
  /\ (c = id ->
      result (get_conversation id)
             (after (create_or_get_conversation now' s r) st')
      = Some (mkConversationRecord id s r (stored now) (Some text))).
Proof.
  intros H1 H2 id st'.
  assert (Hconv : conversations st' = conversations st).
  { unfold st'. by rewrite create_message_after. }
  assert (Hidx : indexes st' !! "conversation_id" = indexes st !! "conversation_id").
  { unfold st'. rewrite create_message_after. simpl.
    by rewrite lookup_insert_ne by discriminate. }
  assert (H1' : Cql.select_conversation_ids s r st' = []).
  { unfold Cql.select_conversation_ids. rewrite Hconv. exact H1. }
  assert (H2' : Cql.select_conversation_ids r s st' = []).
  { unfold Cql.select_conversation_ids. rewrite Hconv. exact H2. }
  pose proof (create_or_get_conversation_fresh now' s r st' H1' H2') as Hfresh.
  rewrite Hidx in Hfresh. fold id in Hfresh.
  split.
  - unfold result. by rewrite Hfresh.
  - intros ->. unfold after. rewrite Hfresh.
    unfold result, get_conversation. rewrite result_query.
    unfold Cql.select_summary. simpl.
    unfold st'. rewrite create_message_after. simpl.
    rewrite lookup_insert_eq. reflexivity.
Qed.

Lemma create_message_registers_no_identity_witness :
  let st' := after (create_message 10000 1 1 2 "hi") empty_store in
  result (create_or_get_conversation 20 1 2) st'
    = Some (mkConversationRecord 1 1 2 20 None)
  /\ result (get_conversation 1) (after (create_or_get_conversation 20 1 2) st')
    = Some (mkConversationRecord 1 1 2 10000 (Some "hi")).
Proof.
  intros st'.
  destruct (create_message_registers_no_identity empty_store 10000 20 1 1 2 "hi")
    as [Hnew Hsummary]; [reflexivity | reflexivity |].
  split; [exact Hnew | apply Hsummary; reflexivity].
Defined.

(** ** Sizes of pages *)

Lemma py_slice_length {A : Type} (l : list A) (start stop : Z) :
  (length (py_slice l start stop) <= length l)%nat.
Proof. apply sublist_length, py_slice_sublist. Qed.

Lemma py_slice_window_length {A : Type} (l : list A) (a k : nat) :
  length (py_slice l (Z.of_nat a) (Z.of_nat a + Z.of_nat k))
  = Nat.min k (length l - a).
Proof. by rewrite py_slice_nonneg, length_take, length_drop. Qed.

Lemma py_slice_page {A : Type} (l : list A) (page limit : Z) :
  1 <= page -> 0 <= limit ->
  py_slice l ((page - 1) * limit) ((page - 1) * limit + limit)
  = take (Z.to_nat limit) (drop (Z.to_nat ((page - 1) * limit)) l).
Proof.
  intros Hpage Hlimit.
  rewrite <- (py_slice_nonneg l (Z.to_nat ((page - 1) * limit)) (Z.to_nat limit)).
  f_equal; nia.
Qed.

(** Page 0: the slice starts [limit] before the end and stops at 0. *)
Lemma py_slice_page_0 {A : Type} (l : list A) (limit : Z) :
  0 < limit -> py_slice l ((0 - 1) * limit) ((0 - 1) * limit + limit) = [].
Proof.
  intros Hlimit. unfold py_slice, clamp_index.
  replace ((0 - 1) * limit + limit) with 0 by lia.
  destruct (Z.ltb_spec ((0 - 1) * limit) 0); [|lia]. simpl.
  rewrite Z.min_l by lia.
  replace (Z.to_nat (0 - _)) with 0%nat by lia. reflexivity.
Qed.

(** Page 1 with a negative limit: from the start up to [-limit] before the
    end. *)
Lemma py_slice_page_1_negative {A : Type} (l : list A) (limit : Z) :
  limit < 0 ->
  py_slice l ((1 - 1) * limit) ((1 - 1) * limit + limit)
  = take (Z.to_nat (Z.of_nat (length l) + limit)) l.
Proof.
  intros Hlimit. unfold py_slice, clamp_index.
  change ((1 - 1) * limit) with 0. rewrite Z.add_0_l. simpl.
  destruct (Z.ltb_spec limit 0); [|lia].
  rewrite Z.min_l by lia. simpl. f_equal. lia.
Qed.

(** X8. For a page number from 1 on and a limit that is not negative, a page
    of [get_conversation_messages] has at most [limit] messages and never
    more than the total; it has exactly [limit] of them while
    [page * limit] stays within the total, and it is empty once
    [(page - 1) * limit] has reached the total. *)
Theorem message_page_sizes st c page limit :
  1 <= page -> 0 <= limit ->
  let messages := (result (get_conversation_messages c page limit) st).1 in
  let total := (result (get_conversation_messages c page limit) st).2 in
  Z.of_nat (length messages) <= limit
  /\ Z.of_nat (length messages) <= total
  /\ (page * limit <= total -> Z.of_nat (length messages) = limit)
  /\ (total <= (page - 1) * limit -> messages = []).
Proof.
  intros Hpage Hlimit messages total. subst messages total.
  rewrite get_conversation_messages_page, get_conversation_messages_total.
  rewrite py_slice_page by assumption.
  set (full := message_item c <$> Cql.select_messages c st).
  replace (length (Cql.select_messages c st)) with (length full)
    by apply length_fmap.
  rewrite length_take, length_drop. split_and!; try nia.
  intros Hpast. apply length_zero_iff_nil.
  rewrite length_take, length_drop. nia.
Qed.

Lemma message_page_sizes_witness :
  let st := after (create_message 30000 1 1 2 "c")
           (after (create_message 20000 1 2 1 "b")
           (after (create_message 10000 1 1 2 "a") empty_store)) in
  Z.of_nat (length (result (get_conversation_messages 1 1 2) st).1) = 2
  /\ (result (get_conversation_messages 1 3 2) st).1 = [].
Proof.
  intros st. split.
  - destruct (message_page_sizes st 1 1 2) as (_ & _ & Hfull & _); [lia | lia |].
    apply Hfull. vm_compute. discriminate.
  - destruct (message_page_sizes st 1 3 2) as (_ & _ & _ & Hpast); [lia | lia |].
    apply Hpast. vm_compute. discriminate.
Defined.

(** X9. What the listings make of a page or limit outside the usual range.
    Page 0 with a limit above 0 is an empty page, with the total still
    reported. Page 1 with a negative limit is the conversation without its
    last [-limit] messages. *)
Theorem message_page_unchecked_input st c limit :
  (0 < limit ->
   result (get_conversation_messages c 0 limit) st
   = ([], Z.of_nat (length (Cql.select_messages c st))))
  /\ (limit < 0 ->
      (result (get_conversation_messages c 1 limit) st).1
      = take (Z.to_nat (Z.of_nat (length (Cql.select_messages c st)) + limit))
             (message_item c <$> Cql.select_messages c st)).
Proof.
  split; intros Hlimit.
  - rewrite (surjective_pairing (result _ _)).
    rewrite get_conversation_messages_page, get_conversation_messages_total.
    by rewrite py_slice_page_0.
  - rewrite get_conversation_messages_page, py_slice_page_1_negative by exact Hlimit.
    by rewrite length_fmap.
Qed.

Lemma message_page_unchecked_input_witness :
  let st := after (create_message 30000 1 1 2 "c")
           (after (create_message 20000 1 2 1 "b")
           (after (create_message 10000 1 1 2 "a") empty_store)) in
  result (get_conversation_messages 1 0 2) st = ([], 3)
  /\ item_id <$> (result (get_conversation_messages 1 1 (-1)) st).1 = [3; 2].
Proof.
  intros st.
  destruct (message_page_unchecked_input st 1 2) as [Hzero _].
  destruct (message_page_unchecked_input st 1 (-1)) as [_ Hneg].
  split.
  - rewrite Hzero by lia. vm_compute. reflexivity.
  - rewrite Hneg by lia. vm_compute. reflexivity.
Defined.

(** X10. Every page of the two listings of messages is in the clustering
    order of the table: newer messages first, and messages of one timestamp
    by ascending id. *)
Theorem message_pages_in_clustering_order st c t page limit :
  let newer_first (a b : MessageItem) :=
    item_created_at b < item_created_at a
    \/ (item_created_at a = item_created_at b /\ item_id a <= item_id b) in
  StronglySorted newer_first
    (result (get_conversation_messages c page limit) st).1
  /\ StronglySorted newer_first
    (result (get_messages_before_timestamp c t page limit) st).1.
Proof.
  intros newer_first.
  assert (Hfull : StronglySorted newer_first
                    (message_item c <$> Cql.select_messages c st)).
  { apply (StronglySorted_fmap _ Cql.clustering_le); [|apply select_messages_sorted].
    intros r1 r2 Hle. exact Hle. }
  split.
  - rewrite get_conversation_messages_page.
    eapply StronglySorted_sublist; [apply py_slice_sublist | exact Hfull].
  - rewrite get_messages_before_timestamp_page, select_messages_before_filter.
    eapply StronglySorted_sublist; [apply py_slice_sublist|].
    rewrite message_item_filter.
    eapply StronglySorted_sublist; [apply sublist_filter | exact Hfull].
Qed.

(** ** Who is listed in [get_user_conversations] *)

Lemma get_user_conversations_page st u page limit :
  (result (get_user_conversations u page limit) st).1
  = conversation_item <$>
      py_slice (Cql.select_summaries_by_sender u st
                ++ Cql.select_summaries_by_receiver u st)
               ((page - 1) * limit) ((page - 1) * limit + limit).
Proof. reflexivity. Qed.

Lemma get_user_conversations_total st u page limit :
  (result (get_user_conversations u page limit) st).2
  = Z.of_nat (length (Cql.select_summaries_by_sender u st
                      ++ Cql.select_summaries_by_receiver u st)).
Proof. reflexivity. Qed.

Lemma summary_rows_elem_of_inv st row :
  row ∈ Cql.summary_rows st ->
  exists cols,
    user_conversations st !! srow_conversation_id row = Some cols
    /\ row = Cql.summary_row (srow_conversation_id row, cols).
Proof.
  unfold Cql.summary_rows.
  intros ([c cols] & -> & Hin)%list_elem_of_fmap.
  apply elem_of_map_to_list in Hin. exists cols. simpl. by split.
Qed.

Lemma fetched_summaries_elem_of st u row :
  row ∈ Cql.select_summaries_by_sender u st
        ++ Cql.select_summaries_by_receiver u st
  <-> (srow_sender_id row = u \/ srow_receiver_id row = u)
      /\ row ∈ Cql.summary_rows st.
Proof.
  unfold Cql.select_summaries_by_sender, Cql.select_summaries_by_receiver.
  rewrite elem_of_app, !list_elem_of_filter. tauto.
Qed.

(** X11. [get_user_conversations u] lists the summaries of [u] and no
    others. Every entry of every page is a row of the summary table in which
    [u] is the sender or the receiver; and every such row is listed, on the
    first page when the limit is the total. *)
Theorem user_conversations_are_those_of_user st u :
  (forall page limit item,
      item ∈ (result (get_user_conversations u page limit) st).1 ->
      (user1_id item = u \/ user2_id item = u)
      /\ user_conversations st !! conv_id item
         = Some (mkSummaryCols (user1_id item) (user2_id item)
                               (to_column (conv_last_message_at item))
                               (conv_last_message_content item)))
  /\ (forall c cols,
        user_conversations st !! c = Some cols ->
        sc_sender_id cols = u \/ sc_receiver_id cols = u ->
        mkConversationItem c (sc_sender_id cols) (sc_receiver_id cols)
                           (of_column (sc_last_timestamp cols))
                           (sc_last_message cols)
        ∈ (result (get_user_conversations u 1
                     (result (get_user_conversations u 1 1) st).2) st).1).
Proof.
  split.
  - intros page limit item. rewrite get_user_conversations_page.
    intros (row & -> & Hrow%py_slice_elem_of)%list_elem_of_fmap.
    apply fetched_summaries_elem_of in Hrow as [Hu Hrow].
    apply summary_rows_elem_of_inv in Hrow as (cols & Hcols & Hrow).
    split; [exact Hu|]. simpl. rewrite Hcols, Hrow. simpl.
    rewrite to_column_of_column. by destruct cols.
  - intros c cols Hcols Hu.
    rewrite get_user_conversations_page, get_user_conversations_total.
    change ((1 - 1) * _) with 0. rewrite Z.add_0_l, py_slice_all.
    apply (list_elem_of_fmap_2' conversation_item _ (Cql.summary_row (c, cols)));
      [|reflexivity].
    apply fetched_summaries_elem_of. split; [exact Hu|].
    by apply summary_rows_elem_of.
Qed.

Lemma user_conversations_are_those_of_user_witness :
  mkConversationItem 2 7 1 10000 "b"
  ∈ (result (get_user_conversations 1 1 3) listing_store).1
  /\ user_conversations listing_store !! 2 = Some (mkSummaryCols 7 1 10 "b").
Proof.
  destruct (user_conversations_are_those_of_user listing_store 1) as [Hsound Hall].
  assert (Hin : mkConversationItem 2 7 1 10000 "b"
                ∈ (result (get_user_conversations 1 1 3) listing_store).1).
  { apply (Hall 2 (mkSummaryCols 7 1 10 "b")); [reflexivity | right; reflexivity]. }
  split; [exact Hin|].
  apply (Hsound 1 3 _ Hin).
Defined.

(** X12. After [create_message c s r text] the conversation [c] is in the
    list of the sender and in the list of the receiver, with the message as
    its last one, at the time the store keeps for it; a user who is neither,
    and who had [c] in the list before, no longer has it. *)
Theorem create_message_lists_conversation st now c s r text :
  let st' := after (create_message now c s r text) st in
  let entry := mkConversationItem c s r (stored now) text in
  entry ∈ (result (get_user_conversations s 1
                     (result (get_user_conversations s 1 1) st').2) st').1
  /\ entry ∈ (result (get_user_conversations r 1
                        (result (get_user_conversations r 1 1) st').2) st').1
  /\ (forall u page limit item,
        u <> s -> u <> r ->
        item ∈ (result (get_user_conversations u page limit) st').1 ->
        conv_id item <> c).
Proof.
  intros st' entry.
  assert (Hrow : Cql.summary_row (c, mkSummaryCols s r (to_column now) text)
                 ∈ Cql.summary_rows st').
  { apply summary_rows_elem_of. unfold st'. rewrite create_message_after.
    simpl. apply lookup_insert_eq. }
  assert (Hlisted : forall u, s = u \/ r = u ->
            entry ∈ (result (get_user_conversations u 1
                       (result (get_user_conversations u 1 1) st').2) st').1).
  { intros u Hu.
    rewrite get_user_conversations_page, get_user_conversations_total.
    change ((1 - 1) * _) with 0. rewrite Z.add_0_l, py_slice_all.
    apply (list_elem_of_fmap_2' conversation_item _
             (Cql.summary_row (c, mkSummaryCols s r (to_column now) text)));
      [|reflexivity].
    apply fetched_summaries_elem_of. split; [exact Hu | exact Hrow]. }
  split_and!.
  - apply Hlisted. by left.
  - apply Hlisted. by right.
  - intros u page limit item Hs Hr. rewrite get_user_conversations_page.
    intros (row & -> & Hin%py_slice_elem_of)%list_elem_of_fmap.
    apply fetched_summaries_elem_of in Hin as [Hu Hin].
    apply summary_rows_elem_of_inv in Hin as (cols & Hcols & Hrow').
    simpl. intros Hc. rewrite Hc in Hcols.
    unfold st' in Hcols. rewrite create_message_after in Hcols. simpl in Hcols.
    rewrite lookup_insert_eq in Hcols. injection Hcols as <-.
    rewrite Hrow' in Hu. simpl in Hu. destruct Hu; congruence.
Qed.

Lemma create_message_lists_conversation_witness :
  let st := after (create_message 15000 2 1 5 "x")
              (after (create_message 10000 1 1 2 "hi") empty_store) in
  let st' := after (create_message 20000 1 3 4 "taken") st in
  mkConversationItem 2 1 5 15000 "x"
    ∈ (result (get_user_conversations 1 1 20) st').1
  /\ conv_id (mkConversationItem 2 1 5 15000 "x") <> 1.
Proof.
  intros st st'.
  assert (Hin : mkConversationItem 2 1 5 15000 "x"
                ∈ (result (get_user_conversations 1 1 20) st').1).
  { vm_compute. apply list_elem_of_here. }
  split; [exact Hin|].
  destruct (create_message_lists_conversation st 20000 1 3 4 "taken") as (_ & _ & Hgone).
  apply (Hgone 1 1 20 _); [discriminate | discriminate | exact Hin].
Defined.

(** ** A pair with a conversation in each order *)

Lemma select_conversation_ids_NoDup a b st :
  NoDup (Cql.select_conversation_ids a b st).
Proof.
  unfold Cql.select_conversation_ids. apply NoDup_fmap_2_strong.
  - intros [[id1 s1] cols1] [[id2 s2] cols2].
    intros [[Hs1 _] Hin1]%list_elem_of_filter [[Hs2 _] Hin2]%list_elem_of_filter.
    simpl in *. intros <-. subst s1 s2.
    apply elem_of_map_to_list in Hin1, Hin2. congruence.
  - apply NoDup_filter, NoDup_map_to_list.
Qed.

(** A row written for another sender does not change what a probe finds. *)
Lemma select_conversation_ids_insert_other id s r ts a b st :
  s <> a ->
  Cql.select_conversation_ids a b (Cql.insert_conversation id s r ts st)
  ≡ₚ Cql.select_conversation_ids a b st.
Proof.
  intros Hother.
  apply NoDup_Permutation; [apply select_conversation_ids_NoDup..|].
  intros x. rewrite !select_conversation_ids_elem_of. simpl.
  by rewrite lookup_insert_ne by congruence.
Qed.

(** X13. The order of the pair decides once there is a conversation in each
    order. After [create_conversation a b] and [create_conversation b a] for
    two different users with no conversation before,
    [create_or_get_conversation a b] reads the first conversation and
    [create_or_get_conversation b a] the second, one id above; neither call
    writes. *)
Theorem probe_order_decides st now1 now2 now3 a b :
  a <> b ->
  Cql.select_conversation_ids a b st = [] ->
  Cql.select_conversation_ids b a st = [] ->
  let id := cc_conversation_id (result (create_conversation now1 a b) st) in
  let st2 := after (create_conversation now2 b a)
                   (after (create_conversation now1 a b) st) in
  create_or_get_conversation now3 a b st2 = get_conversation id st2
  /\ create_or_get_conversation now3 b a st2 = get_conversation (id + 1) st2
  /\ (get_conversation id st2).2 = st2
  /\ (get_conversation (id + 1) st2).2 = st2.
Proof.
  intros Hab H1 H2 id st2. subst id.
  rewrite create_conversation_result. simpl.
  set (id := default 0 (indexes st !! "conversation_id") + 1).
  assert (Hst2 : st2 = Cql.insert_conversation (id + 1) b a now2
                   (Cql.update_index_increment "conversation_id"
                      (Cql.insert_conversation id a b now1
                         (Cql.update_index_increment "conversation_id" st)))).
  { unfold st2. rewrite !create_conversation_after. simpl.
    rewrite lookup_insert_eq. reflexivity. }
  set (st0 := Cql.update_index_increment "conversation_id" st) in *.
  set (st1 := Cql.insert_conversation id a b now1 st0) in *.
  assert (Hab1 : Cql.select_conversation_ids a b st1 = [id]).
  { unfold st1. rewrite (select_conversation_ids_insert id a b now1 a b st0 H1).
    by rewrite decide_True. }
  assert (Hba1 : Cql.select_conversation_ids b a st1 = []).
  { unfold st1. rewrite (select_conversation_ids_insert id a b now1 b a st0 H2).
    apply decide_False. intros [? _]. contradiction. }
  assert (Hfirst : Cql.select_conversation_ids a b st2 = [id]).
  { apply Permutation_singleton_r. rewrite Hst2, <- Hab1.
    apply (select_conversation_ids_insert_other (id + 1) b a now2 a b
             (Cql.update_index_increment "conversation_id" st1)).
    congruence. }
  assert (Hsecond : Cql.select_conversation_ids b a st2 = [id + 1]).
  { rewrite Hst2.
    rewrite (select_conversation_ids_insert (id + 1) b a now2 b a
               (Cql.update_index_increment "conversation_id" st1) Hba1).
    by rewrite decide_True. }
  split_and!.
  - unfold create_or_get_conversation. by rewrite !result_query, Hfirst.
  - unfold create_or_get_conversation. rewrite !result_query, Hsecond.
    reflexivity.
  - unfold get_conversation. rewrite result_query.
    destruct (Cql.select_summary id st2); reflexivity.
  - unfold get_conversation. rewrite result_query.
    destruct (Cql.select_summary (id + 1) st2); reflexivity.
Qed.

Lemma probe_order_decides_witness :
  let st2 := after (create_conversation 20 2 1)
                   (after (create_conversation 10 1 2) empty_store) in
  let st3 := after (create_message 40000 2 2 1 "second")
                   (after (create_message 30000 1 1 2 "first") st2) in
  Cql.select_conversation_ids 1 2 st3 = [1]
  /\ Cql.select_conversation_ids 2 1 st3 = [2]
  /\ create_or_get_conversation 50 2 1 st2 = get_conversation 2 st2.
Proof.
  intros st2 st3.
  destruct (probe_order_decides empty_store 10 20 50 1 2) as (_ & Hba & _);
    [discriminate | reflexivity | reflexivity |].
  split_and!; [vm_compute; reflexivity | vm_compute; reflexivity | exact Hba].
Defined.


(** * The scripts *)

(** ** Waiting for the store *)

Import SetupDb.

Lemma wait_attempts_outcome connects (first n : nat) (slept : Z) :
  match wait_attempts connects (seq first n) slept with
  | (Ready i, slept') =>
      (first <= i < first + n)%nat
      /\ connects i = true
      /\ (forall j, (first <= j < i)%nat -> connects j = false)
      /\ slept' = slept + 5 * Z.of_nat (i - first)
  | (CouldNotConnect, slept') =>
      (forall j, (first <= j < first + n)%nat -> connects j = false)
      /\ slept' = slept + 5 * Z.of_nat n
  end.
Proof.
  revert first slept. induction n as [|n IH]; intros first slept; simpl.
  - split; [intros j ?; lia | lia].
  - destruct (connects first) eqn:Hfirst.
    + split_and!; first [lia | exact Hfirst | intros j ?; lia].
    + specialize (IH (S first) (slept + 5)).
      destruct (wait_attempts connects (seq (S first) n) (slept + 5))
        as [[i|] slept'].
      * destruct IH as (Hi & Hconn & Hbefore & Hslept).
        split_and!; try first [lia | exact Hconn].
        intros j Hj. destruct (decide (j = first)) as [->|Hne];
          [exact Hfirst | apply Hbefore; lia].
      * destruct IH as (Hnone & Hslept). split; [|lia].
        intros j Hj. destruct (decide (j = first)) as [->|Hne];
          [exact Hfirst | apply Hnone; lia].
Qed.

(** X14. [wait_for_cassandra] tries at most ten times. It returns the cluster
    of the first attempt that connects, after sleeping 5 seconds for every
    attempt that failed before; when all ten fail it raises, having slept 50
    seconds. *)
Theorem wait_for_cassandra_outcome connects :
  match wait_for_cassandra connects with
  | (Ready i, slept) =>
      (i < 10)%nat
      /\ connects i = true
      /\ (forall j, (j < i)%nat -> connects j = false)
      /\ slept = 5 * Z.of_nat i
  | (CouldNotConnect, slept) =>
      (forall j, (j < 10)%nat -> connects j = false) /\ slept = 50
  end.
Proof.
  unfold wait_for_cassandra.
  pose proof (wait_attempts_outcome connects 0 10 0) as H.
  destruct (wait_attempts connects (seq 0 10) 0) as [[i|] slept].
  - destruct H as (Hi & Hconn & Hbefore & Hslept).
    split_and!; first [lia | exact Hconn | intros j ?; apply Hbefore; lia].
  - destruct H as (Hnone & Hslept).
    split; [intros j ?; apply Hnone; lia | lia].
Qed.

(** ** Generating test data *)

Import TestData.

Lemma keeps_ret {A : Type} (P : Store -> Prop) (a : A) :
  keeps P (gret a) (fun _ st => P st).
Proof. intros w a' w' HP [= <- <-]. exact HP. Qed.

Lemma keeps_bind {A B : Type} (P : Store -> Prop) (Q : A -> Store -> Prop)
    (R : B -> Store -> Prop) (m : G A) (k : A -> G B) :
  keeps P m Q -> (forall a, keeps (Q a) (k a) R) -> keeps P (gbind m k) R.
Proof.
  intros Hm Hk w b w' HP Hrun. unfold gbind in Hrun.
  destruct (m w) as [[a w1]|] eqn:Hmw; [|discriminate].
  eapply Hk; [|exact Hrun]. eapply Hm; [exact HP | exact Hmw].
Qed.

Lemma keeps_weaken {A : Type} (P P' : Store -> Prop) (Q Q' : A -> Store -> Prop)
    (m : G A) :
  keeps P m Q -> (forall st, P' st -> P st) -> (forall a st, Q a st -> Q' a st) ->
  keeps P' m Q'.
Proof. intros Hm HP HQ w a w' HP' Hrun. eapply HQ, Hm; eauto. Qed.

Lemma randint_of_range lo hi d : lo <= hi -> lo <= randint_of lo hi d <= hi.
Proof.
  intros Hle. unfold randint_of.
  pose proof (Z.mod_pos_bound d (hi - lo + 1)). lia.
Qed.

Lemma keeps_randint (P : Store -> Prop) lo hi :
  lo <= hi ->
  keeps P (randint lo hi) (fun v st => P st /\ lo <= v <= hi).
Proof.
  intros Hle w v w' HP Hrun. unfold randint in Hrun.
  destruct (draws w) as [|d rest]; [discriminate|].
  injection Hrun as <- <-. simpl. split; [exact HP|].
  by apply randint_of_range.
Qed.

Lemma keeps_choice (P : Store -> Prop) :
  keeps P choice_true_false (fun _ st => P st).
Proof.
  intros w v w' HP Hrun. unfold choice_true_false in Hrun.
  destruct (draws w) as [|d rest]; [discriminate|].
  injection Hrun as <- <-. exact HP.
Qed.

Lemma keeps_datetime_now (P : Store -> Prop) :
  keeps P datetime_now (fun _ st => P st).
Proof.
  intros w v w' HP Hrun. unfold datetime_now in Hrun.
  destruct (clock w) as [|t rest]; [discriminate|].
  injection Hrun as <- <-. exact HP.
Qed.

Lemma keeps_session_execute (P Q : Store -> Prop) (statement : Store -> Store) :
  (forall st, P st -> Q (statement st)) ->
  keeps P (session_execute statement) (fun _ st => Q st).
Proof.
  intros HPQ w v w' HP Hrun. unfold session_execute in Hrun.
  injection Hrun as <- <-. simpl. by apply HPQ.
Qed.

(** The loop that draws again ends, if it ends, on a user other than the
    first. *)
Lemma redraw_while_equal_distinct user1_id ds user2_id v rest :
  1 <= user2_id <= NUM_USERS ->
  redraw_while_equal user1_id user2_id ds = Some (v, rest) ->
  v <> user1_id /\ 1 <= v <= NUM_USERS.
Proof.
  revert user2_id. induction ds as [|d ds IH]; intros user2_id Hrange; simpl.
  - destruct (bool_decide_reflect (user2_id = user1_id)); [discriminate|].
    intros [= <- _]. by split.
  - destruct (bool_decide_reflect (user2_id = user1_id)).
    + apply IH. by apply randint_of_range.
    + intros [= <- _]. by split.
Qed.

Lemma keeps_while_equal (P : Store -> Prop) user1_id user2_id :
  1 <= user2_id <= NUM_USERS ->
  keeps P (while_equal user1_id user2_id)
        (fun v st => P st /\ v <> user1_id /\ 1 <= v <= NUM_USERS).
Proof.
  intros Hrange w v w' HP Hrun. unfold while_equal in Hrun.
  destruct (redraw_while_equal user1_id user2_id (draws w)) as [[v' rest]|] eqn:Hre;
    [|discriminate].
  injection Hrun as <- <-. simpl. split; [exact HP|].
  by eapply redraw_while_equal_distinct.
Qed.

(** A loop keeps what every turn keeps; the invariant may speak of the
    entries already gone through. *)
Lemma keeps_for_each {A : Type} (I : list A -> Store -> Prop)
    (body : A -> G unit) (done xs : list A) :
  (forall before x rest,
      done ++ xs = before ++ x :: rest ->
      keeps (I before) (body x) (fun _ st => I (before ++ [x]) st)) ->
  keeps (I done) (for_each xs body) (fun _ st => I (done ++ xs) st).
Proof.
  revert done. induction xs as [|x xs IH]; intros done Hbody.
  - rewrite app_nil_r. apply keeps_ret.
  - simpl. eapply keeps_bind.
    + apply (Hbody done x xs). reflexivity.
    + intros u. simpl.
      replace (done ++ x :: xs) with ((done ++ [x]) ++ xs)
        by (by rewrite <- app_assoc).
      apply IH. intros before y rest Heq. apply (Hbody before y rest).
      by rewrite <- Heq, <- app_assoc.
Qed.

(** Some minutes earlier is an earlier millisecond. *)
Lemma to_column_minutes_before (t : Timestamp) (m : Z) :
  1 <= m -> to_column (t - minutes m) < to_column t.
Proof.
  intros Hm.
  destruct (to_column_spec t) as (r & Ht & Hr & _).
  destruct (to_column_spec (t - minutes m)) as (r' & Ht' & Hr' & _).
  unfold minutes in *. lia.
Qed.

(** One message of the inner loop. *)
Lemma generate_message_keeps st0 done c user1_id user2_id last text message_id :
  user1_id <> user2_id ->
  keeps (fun st => generated_so_far st0 (done ++ [c]) st
                   /\ user_conversations st !! c
                      = Some (mkSummaryCols user1_id user2_id (to_column last) text))
        (draw m <- randint 1 1000;
         let timestamp := last - minutes m in
         draw heads <- choice_true_false;
         let sender_id := if heads then user1_id else user2_id in
         let receiver_id :=
           if bool_decide (sender_id = user1_id) then user2_id else user1_id in
         session_execute
           (Cql.insert_message message_id c sender_id receiver_id
              ("Message " +:+ pretty message_id +:+ " in conversation "
               +:+ pretty c)
              timestamp))
        (fun _ st => generated_so_far st0 (done ++ [c]) st
                     /\ user_conversations st !! c
                        = Some (mkSummaryCols user1_id user2_id (to_column last) text)).
Proof.
  intros Hdistinct.
  eapply keeps_bind; [apply (keeps_randint _ 1 1000); lia|].
  intros m. simpl.
  eapply keeps_bind; [apply keeps_choice|].
  intros heads. simpl.
  apply keeps_session_execute.
  intros st [[(Hidx & Hconv & Hsum & Hmsg) Hc] Hm].
  split; [|exact Hc].
  split_and!; [exact Hidx | exact Hconv | exact Hsum |].
  intros key mcols. simpl.
  destruct (decide ((c, to_column (last - minutes m), message_id) = key))
    as [<-|Hkey].
  - rewrite lookup_insert_eq. intros [= <-]. right. simpl.
    split; [apply elem_of_app; right; by apply list_elem_of_singleton|].
    eexists. split; [exact Hc|].
    unfold message_generated. simpl. split_and!.
    + apply to_column_minutes_before. lia.
    + destruct heads.
      * left. by rewrite bool_decide_eq_true_2.
      * right. by rewrite bool_decide_eq_false_2 by congruence.
    + reflexivity.
  - rewrite lookup_insert_ne by exact Hkey. apply Hmsg.
Qed.

Lemma generate_messages_keeps st0 done c user1_id user2_id last text num :
  user1_id <> user2_id ->
  keeps (fun st => generated_so_far st0 (done ++ [c]) st
                   /\ user_conversations st !! c
                      = Some (mkSummaryCols user1_id user2_id (to_column last) text))
        (generate_messages c user1_id user2_id last num)
        (fun _ st => generated_so_far st0 (done ++ [c]) st).
Proof.
  intros Hdistinct. unfold generate_messages.
  eapply keeps_weaken;
    [apply (keeps_for_each
              (fun _ st => generated_so_far st0 (done ++ [c]) st
                           /\ user_conversations st !! c
                              = Some (mkSummaryCols user1_id user2_id
                                                    (to_column last) text))
              _ [] (seqZ 1 num))
    | intros st H; exact H
    | intros u st [H _]; exact H].
  intros _ message_id _ _.
  apply (generate_message_keeps st0 done c user1_id user2_id last text
                                message_id Hdistinct).
Qed.

(** Writing the summary of a conversation that is not yet written. *)
Lemma insert_summary_generated st0 done c user1_id user2_id last st :
  c ∉ done ->
  user1_id <> user2_id ->
  1 <= user1_id <= NUM_USERS -> 1 <= user2_id <= NUM_USERS ->
  generated_so_far st0 done st ->
  generated_so_far st0 (done ++ [c])
    (Cql.insert_summary c user1_id user2_id last
       ("Last message in conversation " +:+ pretty c) st).
Proof.
  intros Hfresh Hdistinct Hu1 Hu2 (Hidx & Hconv & Hsum & Hmsg).
  split_and!; [exact Hidx | exact Hconv | |].
  - intros c' [Hc'|Hc'%list_elem_of_singleton]%elem_of_app; simpl.
    + rewrite lookup_insert_ne by (intros ->; contradiction). by apply Hsum.
    + subst c'. rewrite lookup_insert_eq. eexists. split; [reflexivity|].
      unfold summary_generated. simpl. split_and!; first [done | lia].
  - intros key mcols Hkey. simpl in Hkey.
    destruct (Hmsg key mcols Hkey) as [Hold|[Hin Hgen]]; [by left|right].
    split; [apply elem_of_app; by left|]. simpl.
    rewrite lookup_insert_ne by (intros ->; contradiction). exact Hgen.
Qed.

Lemma generate_conversation_keeps st0 done c :
  c ∉ done ->
  keeps (generated_so_far st0 done) (generate_conversation c)
        (fun _ st => generated_so_far st0 (done ++ [c]) st).
Proof.
  intros Hfresh. unfold generate_conversation, NUM_USERS.
  eapply keeps_bind; [apply (keeps_randint _ 1 10); lia|].
  intros user1_id. simpl.
  eapply keeps_bind; [apply (keeps_randint _ 1 10); lia|].
  intros user2_id. simpl.
  eapply keeps_bind.
  { intros w v w' [[HP Hu1] Hu2] Hrun.
    exact (keeps_while_equal
             (fun st => generated_so_far st0 done st /\ 1 <= user1_id <= 10)
             user1_id user2_id Hu2 w v w' (conj HP Hu1) Hrun). }
  intros user2_id'. simpl.
  eapply keeps_bind; [apply keeps_datetime_now|].
  intros now. simpl.
  eapply keeps_bind; [apply (keeps_randint _ 0 30); lia|].
  intros d. simpl.
  eapply keeps_bind.
  { apply (keeps_session_execute _
             (fun st => generated_so_far st0 (done ++ [c]) st
                        /\ user_conversations st !! c
                           = Some (mkSummaryCols user1_id user2_id'
                                     (to_column (now - days d))
                                     ("Last message in conversation " +:+ pretty c))
                        /\ user1_id <> user2_id')).
    intros st [[[HP Hu1] (Hne & Hu2)] _].
    split; [|split].
    - apply insert_summary_generated; first [done | congruence].
    - simpl. apply lookup_insert_eq.
    - congruence. }
  intros u. simpl.
  eapply keeps_bind; [apply (keeps_randint _ 1 MAX_MESSAGES_PER_CONVERSATION);
                      unfold MAX_MESSAGES_PER_CONVERSATION; lia|].
  intros num. simpl.
  intros w v w' [(HP & Hc & Hne) _] Hrun.
  eapply (generate_messages_keeps st0 done c user1_id user2_id'); eauto.
Qed.

Lemma generate_test_data_generated w u w' :
  generate_test_data w = Some (u, w') ->
  generated_so_far (store w) (seqZ 1 NUM_CONVERSATIONS) (store w').
Proof.
  intros Hrun. unfold generate_test_data in Hrun.
  eapply (keeps_for_each (generated_so_far (store w)) generate_conversation
            [] (seqZ 1 NUM_CONVERSATIONS)); [| |exact Hrun].
  - intros before c rest Heq. apply generate_conversation_keeps.
    pose proof (NoDup_seqZ 1 NUM_CONVERSATIONS) as Hnd.
    simpl in Heq. rewrite Heq in Hnd.
    apply NoDup_app in Hnd as (_ & Hdisj & _).
    intros Hin. apply (Hdisj c Hin). by left.
  - split_and!; [reflexivity | reflexivity | intros c []%elem_of_nil |].
    intros key mcols Hkey. by left.
Qed.

Lemma get_conversation_of_summary c cols st :
  user_conversations st !! c = Some cols ->
  result (get_conversation c) st
  = Some (mkConversationRecord c (sc_sender_id cols) (sc_receiver_id cols)
            (of_column (sc_last_timestamp cols)) (Some (sc_last_message cols))).
Proof.
  intros Hc. unfold result, get_conversation. rewrite result_query.
  unfold Cql.select_summary. by rewrite Hc.
Qed.

Lemma sample_world_runs :
  exists w', generate_test_data sample_world = Some (tt, w').
Proof. eexists. vm_compute. reflexivity. Qed.

(** X15. When [generate_test_data] has run, every conversation from 1 to
    [NUM_CONVERSATIONS] has a summary: [get_conversation] returns a record
    with two different users between 1 and [NUM_USERS] and the text that
    names the conversation as its last message. *)
Theorem generate_test_data_summaries w u w' c :
  generate_test_data w = Some (u, w') ->
  1 <= c <= NUM_CONVERSATIONS ->
  exists rec,
    result (get_conversation c) (store w') = Some rec
    /\ cr_conversation_id rec = c
    /\ cr_sender_id rec <> cr_receiver_id rec
    /\ 1 <= cr_sender_id rec <= NUM_USERS
    /\ 1 <= cr_receiver_id rec <= NUM_USERS
    /\ last_message_content rec
       = Some ("Last message in conversation " +:+ pretty c).
Proof.
  intros Hrun Hc.
  destruct (generate_test_data_generated w u w' Hrun) as (_ & _ & Hsum & _).
  destruct (Hsum c) as (cols & Hcols & Hne & Hs & Hr & Htext).
  { apply elem_of_seqZ. unfold NUM_CONVERSATIONS in *. lia. }
  eexists. split; [by apply get_conversation_of_summary|]. simpl.
  split_and!; first [done | lia | by rewrite Htext].
Qed.

Lemma generate_test_data_summaries_witness :
  exists w',
    generate_test_data sample_world = Some (tt, w')
    /\ exists rec,
         result (get_conversation 7) (store w') = Some rec
         /\ last_message_content rec = Some "Last message in conversation 7".
Proof.
  destruct sample_world_runs as [w' Hrun]. exists w'. split; [exact Hrun|].
  destruct (generate_test_data_summaries sample_world tt w' 7 Hrun)
    as (rec & Hrec & _ & _ & _ & _ & Htext).
  { unfold NUM_CONVERSATIONS. lia. }
  exists rec. split; [exact Hrec | exact Htext].
Defined.

(** X16. [generate_test_data] writes to the summaries and to the messages
    only. The counters and the identity table are as before, so the ids that
    [create_message] and [create_conversation] hand out next are the ones
    they would have handed out before the run. *)
Theorem generate_test_data_leaves_counters w u w' :
  generate_test_data w = Some (u, w') ->
  indexes (store w') = indexes (store w)
  /\ conversations (store w') = conversations (store w)
  /\ (forall now c s r text,
        message_id (result (create_message now c s r text) (store w'))
        = message_id (result (create_message now c s r text) (store w)))
  /\ (forall now s r,
        cc_conversation_id (result (create_conversation now s r) (store w'))
        = cc_conversation_id (result (create_conversation now s r) (store w))).
Proof.
  intros Hrun.
  destruct (generate_test_data_generated w u w' Hrun) as (Hidx & Hconv & _).
  split_and!; [exact Hidx | exact Hconv | |].
  - intros. rewrite !create_message_result. simpl. by rewrite Hidx.
  - intros. rewrite !create_conversation_result. simpl. by rewrite Hidx.
Qed.

Lemma generate_test_data_leaves_counters_witness :
  exists w',
    generate_test_data sample_world = Some (tt, w')
    /\ message_id (result (create_message 5000 1 4 8 "hi") (store w')) = 1.
Proof.
  destruct sample_world_runs as [w' Hrun]. exists w'. split; [exact Hrun|].
  destruct (generate_test_data_leaves_counters sample_world tt w' Hrun)
    as (_ & _ & Hid & _).
  rewrite Hid. reflexivity.
Defined.

Lemma select_conversation_ids_none a b st :
  conversations st = ∅ -> Cql.select_conversation_ids a b st = [].
Proof.
  intros Hnone. unfold Cql.select_conversation_ids.
  by rewrite Hnone, map_to_list_empty.
Qed.

(** X17. Test data on a store whose counters and identity table are empty
    takes the ids that are handed out next. The first
    [create_or_get_conversation] for any pair then creates conversation 1,
    and asking again for the pair returns the summary that the script wrote
    for its conversation 1. *)
Theorem generate_test_data_then_create_or_get w u w' now1 now2 a b :
  indexes (store w) = ∅ ->
  conversations (store w) = ∅ ->
  generate_test_data w = Some (u, w') ->
  let first := create_or_get_conversation now1 a b (store w') in
  first.1 = Some (mkConversationRecord 1 a b now1 None)
  /\ exists rec,
       result (create_or_get_conversation now2 a b) first.2 = Some rec
       /\ cr_conversation_id rec = 1
       /\ cr_sender_id rec <> cr_receiver_id rec
       /\ last_message_content rec = Some "Last message in conversation 1".
Proof.
  intros Hidx0 Hconv0 Hrun first.
  destruct (generate_test_data_generated w u w' Hrun) as (Hidx & Hconv & Hsum & _).
  rewrite Hidx0 in Hidx. rewrite Hconv0 in Hconv.
  assert (Hab : Cql.select_conversation_ids a b (store w') = [])
    by (by apply select_conversation_ids_none).
  assert (Hba : Cql.select_conversation_ids b a (store w') = [])
    by (by apply select_conversation_ids_none).
  assert (Hfirst : first
                   = (Some (mkConversationRecord 1 a b now1 None),
                      Cql.insert_conversation 1 a b now1
                        (Cql.update_index_increment "conversation_id" (store w')))).
  { unfold first. rewrite (create_or_get_conversation_fresh now1 a b _ Hab Hba).
    by rewrite Hidx. }
  rewrite Hfirst. simpl. split; [reflexivity|].
  destruct (Hsum 1) as (cols & Hcols & Hne & _ & _ & Htext).
  { apply elem_of_seqZ. unfold NUM_CONVERSATIONS. lia. }
  set (st1 := Cql.insert_conversation 1 a b now1
                (Cql.update_index_increment "conversation_id" (store w'))).
  assert (Hprobe : Cql.select_conversation_ids a b st1 = [1]).
  { unfold st1.
    rewrite (select_conversation_ids_insert 1 a b now1 a b
               (Cql.update_index_increment "conversation_id" (store w')) Hab).
    by rewrite decide_True. }
  eexists. split_and!.
  - unfold result, create_or_get_conversation.
    rewrite !result_query, Hprobe.
    apply (get_conversation_of_summary 1 cols st1). exact Hcols.
  - reflexivity.
  - exact Hne.
  - simpl. by rewrite Htext.
Qed.

Lemma generate_test_data_then_create_or_get_witness :
  exists w',
    generate_test_data sample_world = Some (tt, w')
    /\ (create_or_get_conversation 5 1 2 (store w')).1
       = Some (mkConversationRecord 1 1 2 5 None).
Proof.
  destruct sample_world_runs as [w' Hrun]. exists w'. split; [exact Hrun|].
  destruct (generate_test_data_then_create_or_get sample_world tt w' 5 6 1 2)
    as [Hfirst _]; [reflexivity | reflexivity | exact Hrun | exact Hfirst].
Defined.

(** X18. In test data written to an empty table of messages the summary of a
    conversation is not about any of its messages. Every message that
    [get_conversation_messages] lists is between the two users of the
    summary, but it is older than the time the summary gives for the last
    message, and its text is not the last message of the summary. *)
Theorem generate_test_data_summary_is_no_message w u w' c page limit item :
  messages (store w) = ∅ ->
  generate_test_data w = Some (u, w') ->
  item ∈ (result (get_conversation_messages c page limit) (store w')).1 ->
  exists rec,
    result (get_conversation c) (store w') = Some rec
    /\ item_created_at item < last_message_at rec
    /\ last_message_content rec <> Some (item_content item)
    /\ ((item_sender_id item = cr_sender_id rec
         /\ item_receiver_id item = cr_receiver_id rec)
        \/ (item_sender_id item = cr_receiver_id rec
            /\ item_receiver_id item = cr_sender_id rec))
    /\ item_content item
       = "Message " +:+ pretty (item_id item) +:+ " in conversation "
         +:+ pretty c.
Proof.
  intros Hempty Hrun Hitem.
  destruct (generate_test_data_generated w u w' Hrun) as (_ & _ & Hsum & Hmsg).
  rewrite get_conversation_messages_page in Hitem.
  apply py_slice_elem_of, list_elem_of_fmap in Hitem as (row & -> & Hrow).
  apply select_messages_elem_of, partition_rows_elem_of in Hrow
    as (mcols & Hkey & Hrow).
  destruct (Hmsg _ _ Hkey) as [Hold|[Hin (scols & Hscols & Hts & Hpair & Htext)]].
  { rewrite Hempty, lookup_empty in Hold. discriminate. }
  simpl in Hin, Hscols, Hts, Htext.
  destruct (Hsum c Hin) as (cols & Hcols & _ & _ & _ & Hlast).
  rewrite Hscols in Hcols. injection Hcols as <-.
  eexists. split; [by apply get_conversation_of_summary|]. simpl.
  rewrite Hrow. simpl. split_and!.
  - unfold of_column. lia.
  - rewrite Hlast, Htext. simpl. intros [= ?].
  - exact Hpair.
  - exact Htext.
Qed.

Lemma generate_test_data_summary_is_no_message_witness :
  exists w',
    generate_test_data sample_world = Some (tt, w')
    /\ mkMessageItem 1 4 8 "Message 1 in conversation 3" 8880000000 3
       ∈ (result (get_conversation_messages 3 1 20) (store w')).1
    /\ exists rec,
         result (get_conversation 3) (store w') = Some rec
         /\ 8880000000 < last_message_at rec.
Proof.
  destruct sample_world_runs as [w' Hrun]. exists w'. split; [exact Hrun|].
  assert (Hin : mkMessageItem 1 4 8 "Message 1 in conversation 3" 8880000000 3
                ∈ (result (get_conversation_messages 3 1 20) (store w')).1).
  { assert (Hw' : generate_test_data sample_world = Some (tt, w')) by exact Hrun.
    vm_compute in Hw'. injection Hw' as <-. vm_compute. apply list_elem_of_here. }
  split; [exact Hin|].
  destruct (generate_test_data_summary_is_no_message
              sample_world tt w' 3 1 20 _ eq_refl Hrun Hin)
    as (rec & Hrec & Hts & _).
  exists rec. split; [exact Hrec | exact Hts].
Defined.
